(** * NTP packet codec and receive path ([protocol/ntp/packet.go])

    A shallow embedding of the Go package [ntp]: the 48-byte packet layout,
    the check of the settings byte, the two codec functions built on
    [encoding/binary], and the two receive functions.

    Conventions of the embedding:
    - a Go integer of width [w] is a [Z]; every conversion and every shift
      that can wrap is written with the wrap-around of its Go type
      ([to_uint8], [to_uint32], [to_int8], [to_int64]);
    - a [[]byte] is a [list Z]; a function that writes into a slice it was
      handed returns the slice after the call;
    - a run-time panic (index or slice bound out of range) is the outcome
      [Panics]; a read through an unsafe pointer that leaves the object it
      points into is the outcome [Undefined]; a normal return is [Returns];
    - a Go [error] is [option error], [None] being [nil]; a pointer that may
      be [nil] is an [option]. *)

From Stdlib Require Import ZArith List Lia Bool String.
From stdpp Require Import base decidable option list.

Local Open Scope Z_scope.

(** ** Machine integers *)

Definition to_uint8 (x : Z) : Z := x mod 2 ^ 8.
Definition to_uint32 (x : Z) : Z := x mod 2 ^ 32.
Definition to_int8 (x : Z) : Z := (x + 2 ^ 7) mod 2 ^ 8 - 2 ^ 7.
Definition to_int32 (x : Z) : Z := (x + 2 ^ 31) mod 2 ^ 32 - 2 ^ 31.
Definition to_int64 (x : Z) : Z := (x + 2 ^ 63) mod 2 ^ 64 - 2 ^ 63.
Definition to_uint64 (x : Z) : Z := x mod 2 ^ 64.

Definition is_uint8 (x : Z) : Prop := 0 <= x < 2 ^ 8.
Definition is_int8 (x : Z) : Prop := - 2 ^ 7 <= x < 2 ^ 7.
Definition is_uint32 (x : Z) : Prop := 0 <= x < 2 ^ 32.

(** ** Outcomes of a Go call *)

Inductive run (A : Type) : Type :=
| Panics : run A
| Undefined : run A
| Returns : A -> run A.
Arguments Panics {A}.
Arguments Undefined {A}.
Arguments Returns {A} _.

Definition run_bind {A B} (m : run A) (k : A -> run B) : run B :=
  match m with
  | Panics => Panics
  | Undefined => Undefined
  | Returns a => k a
  end.

(** The error values that can reach this package: the sentinels of package
    [io], and an error of the operating system or of the [net] package,
    identified by a code. *)
Inductive error : Type :=
| EOF
| ErrUnexpectedEOF
| ErrShortBuffer
| OSError (code : Z).

#[global] Instance error_eq_dec : EqDecision error.
Proof. solve_decision. Defined.

(** ** The packet *)

Definition NTPPacketSizeBytes : nat := 48.
Definition ControlHeaderSizeBytes : nat := 32.

Record Packet : Type := mkPacket {
  Settings : Z;        (* uint8 *)
  Stratum : Z;         (* uint8 *)
  Poll : Z;            (* int8 *)
  Precision : Z;       (* int8 *)
  RootDelay : Z;       (* uint32 *)
  RootDispersion : Z;  (* uint32 *)
  ReferenceID : Z;     (* uint32 *)
  RefTimeSec : Z;      (* uint32 *)
  RefTimeFrac : Z;     (* uint32 *)
  OrigTimeSec : Z;     (* uint32 *)
  OrigTimeFrac : Z;    (* uint32 *)
  RxTimeSec : Z;       (* uint32 *)
  RxTimeFrac : Z;      (* uint32 *)
  TxTimeSec : Z;       (* uint32 *)
  TxTimeFrac : Z       (* uint32 *)
}.

(** [&Packet{}]: every field at its zero value. *)
Definition Packet_zero : Packet := mkPacket 0 0 0 0 0 0 0 0 0 0 0 0 0 0 0.

(** The values a Go [Packet] can hold: each field within its declared type. *)
Record Packet_typed (p : Packet) : Prop := {
  typed_Settings : is_uint8 (Settings p);
  typed_Stratum : is_uint8 (Stratum p);
  typed_Poll : is_int8 (Poll p);
  typed_Precision : is_int8 (Precision p);
  typed_RootDelay : is_uint32 (RootDelay p);
  typed_RootDispersion : is_uint32 (RootDispersion p);
  typed_ReferenceID : is_uint32 (ReferenceID p);
  typed_RefTimeSec : is_uint32 (RefTimeSec p);
  typed_RefTimeFrac : is_uint32 (RefTimeFrac p);
  typed_OrigTimeSec : is_uint32 (OrigTimeSec p);
  typed_OrigTimeFrac : is_uint32 (OrigTimeFrac p);
  typed_RxTimeSec : is_uint32 (RxTimeSec p);
  typed_RxTimeFrac : is_uint32 (RxTimeFrac p);
  typed_TxTimeSec : is_uint32 (TxTimeSec p);
  typed_TxTimeFrac : is_uint32 (TxTimeFrac p)
}.

(** ** Settings byte *)

Definition liNoWarning : Z := 0.
Definition liAlarmCondition : Z := 3.
Definition vnFirst : Z := 1.
Definition vnLast : Z := 4.
Definition modeClient : Z := 3.

(** The three shifts are [uint8] shifts: a left shift drops the bits that
    leave the byte. *)
Definition ValidSettingsFormat (p : Packet) : bool :=
  let settings := Settings p in
  let l := Z.shiftr settings 6 in
  let v := Z.shiftr (to_uint8 (Z.shiftl settings 2)) 5 in
  let m := Z.shiftr (to_uint8 (Z.shiftl settings 5)) 5 in
  if (l =? liNoWarning) || (l =? liAlarmCondition) then
    if (v >=? vnFirst) && (v <=? vnLast) then
      if m =? modeClient then true else false
    else false
  else false.

(** The sub-fields of the settings byte as the packet diagram numbers them:
    bit 7 is the most significant bit of the byte. *)
Definition bit_field (hi lo : Z) (b : Z) : Z := (b / 2 ^ lo) mod 2 ^ (hi - lo + 1).
Definition leap_indicator (b : Z) : Z := bit_field 7 6 b.
Definition version_number (b : Z) : Z := bit_field 5 3 b.
Definition packet_mode (b : Z) : Z := bit_field 2 0 b.

(** The acceptance condition in the words of the format description. *)
Definition settings_accepted (b : Z) : Prop :=
  (leap_indicator b = 0 \/ leap_indicator b = 3) /\
  1 <= version_number b <= 4 /\
  packet_mode b = 3.

Definition settings_acceptedb (b : Z) : bool :=
  ((leap_indicator b =? 0) || (leap_indicator b =? 3)) &&
  ((1 <=? version_number b) && (version_number b <=? 4)) &&
  (packet_mode b =? 3).

Definition all_bytes : list Z := Z.of_nat <$> seq 0 256.

Definition with_settings (b : Z) : Packet :=
  mkPacket b 0 0 0 0 0 0 0 0 0 0 0 0 0 0.

(** ** Package [encoding/binary]: the reflection path for a struct

    [binary.Write] and [binary.Read] are given a [*Packet], which is none of
    the basic types of their fast path; both fall back to walking the fields
    of the struct in declaration order with a [coder] (a buffer and an
    offset into it). *)

Inductive Kind : Type := Uint8 | Int8 | Uint32.

Definition Packet_type : list Kind :=
  [Uint8; Uint8; Int8; Int8; Uint32; Uint32; Uint32;
   Uint32; Uint32; Uint32; Uint32; Uint32; Uint32; Uint32; Uint32].

Definition sizeof (k : Kind) : nat :=
  match k with
  | Uint8 | Int8 => 1
  | Uint32 => 4
  end.

(** [dataSize]: the sum of the sizes of the fields. *)
Definition dataSize (t : list Kind) : nat := foldr (fun k n => (sizeof k + n)%nat) 0%nat t.

Record coder : Type := mkCoder { buf : list Z; offset : nat }.

(** A computation over a coder that may panic. *)
Definition Coder (A : Type) : Type := coder -> run (A * coder).

Definition ret {A} (a : A) : Coder A := fun c => Returns (a, c).

Definition bind {A B} (m : Coder A) (k : A -> Coder B) : Coder B :=
  fun c =>
    match m c with
    | Panics => Panics
    | Undefined => Undefined
    | Returns (a, c') => k a c'
    end.

Declare Scope coder_scope.
Delimit Scope coder_scope with coder.
Notation "x <- m ;; k" := (bind m (fun x => k))
  (at level 90, m at level 89, k at level 200, right associativity) : coder_scope.
Notation "m ;;; k" := (bind m (fun _ => k))
  (at level 90, k at level 200, right associativity) : coder_scope.
Local Open Scope coder_scope.

(** [c.buf[i]]: an index outside the slice panics. *)
Definition index (i : nat) : Coder Z :=
  fun c =>
    match buf c !! i with
    | Some x => Returns (x, c)
    | None => Panics
    end.

(** [c.buf[i] = x]. *)
Definition assign (i : nat) (x : Z) : Coder unit :=
  fun c =>
    if decide (i < length (buf c))%nat
    then Returns (tt, mkCoder (<[i := x]> (buf c)) (offset c))
    else Panics.

(** [c.buf[lo:hi]] taken for its bounds check only: the callers below reach
    the bytes of the window through [index] and [assign] at [lo + k], since
    the window shares its storage with [c.buf]. *)
Definition slice_check (lo hi : nat) : Coder unit :=
  fun c =>
    if decide (lo <= hi <= length (buf c))%nat then Returns (tt, c) else Panics.

Definition get_offset : Coder nat := fun c => Returns (offset c, c).
Definition advance (n : nat) : Coder unit :=
  fun c => Returns (tt, mkCoder (buf c) (offset c + n)).

Module BigEndian.

(** [PutUint32(b, v)] on the window [b] that starts at [lo]. *)
Definition PutUint32 (lo : nat) (v : Z) : Coder unit :=
  assign lo (to_uint8 (Z.shiftr v 24)) ;;;
  assign (lo + 1) (to_uint8 (Z.shiftr v 16)) ;;;
  assign (lo + 2) (to_uint8 (Z.shiftr v 8)) ;;;
  assign (lo + 3) (to_uint8 v).

(** [uint32(b3) | uint32(b2)<<8 | uint32(b1)<<16 | uint32(b0)<<24]. *)
Definition combine (b0 b1 b2 b3 : Z) : Z :=
  Z.lor (Z.lor (Z.lor (to_uint32 b3)
                      (to_uint32 (Z.shiftl (to_uint32 b2) 8)))
               (to_uint32 (Z.shiftl (to_uint32 b1) 16)))
        (to_uint32 (Z.shiftl (to_uint32 b0) 24)).

(** [byte(v >> 24)], [byte(v >> 16)], [byte(v >> 8)], [byte(v)]. *)
Definition split (v : Z) : list Z :=
  [to_uint8 (Z.shiftr v 24); to_uint8 (Z.shiftr v 16);
   to_uint8 (Z.shiftr v 8); to_uint8 v].

(** [Uint32(b)] on the window [b] that starts at [lo]. *)
Definition Uint32 (lo : nat) : Coder Z :=
  b0 <- index lo ;;
  b1 <- index (lo + 1) ;;
  b2 <- index (lo + 2) ;;
  b3 <- index (lo + 3) ;;
  ret (combine b0 b1 b2 b3).

End BigEndian.

Module encoder.

Definition uint8 (x : Z) : Coder unit :=
  o <- get_offset ;; assign o x ;;; advance 1.

Definition int8 (x : Z) : Coder unit := uint8 (to_uint8 x).

Definition uint32 (x : Z) : Coder unit :=
  o <- get_offset ;;
  slice_check o (o + 4) ;;;
  BigEndian.PutUint32 o x ;;;
  advance 4.

(** [e.value(v)] for [v] a [Packet]: one write per field, in order. *)
Definition value (p : Packet) : Coder unit :=
  uint8 (Settings p) ;;;
  uint8 (Stratum p) ;;;
  int8 (Poll p) ;;;
  int8 (Precision p) ;;;
  uint32 (RootDelay p) ;;;
  uint32 (RootDispersion p) ;;;
  uint32 (ReferenceID p) ;;;
  uint32 (RefTimeSec p) ;;;
  uint32 (RefTimeFrac p) ;;;
  uint32 (OrigTimeSec p) ;;;
  uint32 (OrigTimeFrac p) ;;;
  uint32 (RxTimeSec p) ;;;
  uint32 (RxTimeFrac p) ;;;
  uint32 (TxTimeSec p) ;;;
  uint32 (TxTimeFrac p).

End encoder.

Module decoder.

Definition uint8 : Coder Z :=
  o <- get_offset ;; x <- index o ;; advance 1 ;;; ret x.

Definition int8 : Coder Z := x <- uint8 ;; ret (to_int8 x).

Definition uint32 : Coder Z :=
  o <- get_offset ;;
  slice_check o (o + 4) ;;;
  x <- BigEndian.Uint32 o ;;
  advance 4 ;;;
  ret x.

(** [d.value(v)] for [v] a [Packet]: one read per field, in order. *)
Definition value : Coder Packet :=
  settings <- uint8 ;;
  stratum <- uint8 ;;
  poll <- int8 ;;
  precision <- int8 ;;
  rootDelay <- uint32 ;;
  rootDispersion <- uint32 ;;
  referenceID <- uint32 ;;
  refTimeSec <- uint32 ;;
  refTimeFrac <- uint32 ;;
  origTimeSec <- uint32 ;;
  origTimeFrac <- uint32 ;;
  rxTimeSec <- uint32 ;;
  rxTimeFrac <- uint32 ;;
  txTimeSec <- uint32 ;;
  txTimeFrac <- uint32 ;;
  ret (mkPacket settings stratum poll precision rootDelay rootDispersion
         referenceID refTimeSec refTimeFrac origTimeSec origTimeFrac
         rxTimeSec rxTimeFrac txTimeSec txTimeFrac).

End decoder.

(** [make([]byte, n)]. *)
Definition make (n : nat) : list Z := replicate n 0.

(** ** Package [bytes]: [Buffer] and [Reader] *)

(** [Buffer.Write] appends and reports no error. *)
Definition Buffer_Write (b : list Z) (p : list Z) : list Z * nat * option error :=
  (b ++ p, length p, None).

Record Reader : Type := mkReader { s : list Z; i : nat }.

Definition NewReader (b : list Z) : Reader := mkReader b 0.

(** [copy(dst, src)]: the destination after the copy and the number of
    elements copied. *)
Definition copy (dst src : list Z) : list Z * nat :=
  let n := Nat.min (length dst) (length src) in
  (take n src ++ drop n dst, n).

(** [r.Read(b)]: the reader and [b] after the call, the count, the error. *)
Definition Reader_Read (r : Reader) (b : list Z) : Reader * list Z * nat * option error :=
  if decide (length (s r) <= i r)%nat then (r, b, 0%nat, Some EOF)
  else
    let '(b', n) := copy b (drop (i r) (s r)) in
    (mkReader (s r) (i r + n), b', n, None).

(** ** Package [io]: [ReadAtLeast] and [ReadFull]

    The loop of [ReadAtLeast] is unrolled [fuel] times; [ReadAtLeast] runs
    it with [min + 1] rounds, which [ReadAtLeast_loop_exits] shows is
    enough for the loop to leave through its own condition. *)
Fixpoint ReadAtLeast_loop (fuel : nat) (r : Reader) (b : list Z) (min n : nat)
    (err : option error) : Reader * list Z * nat * option error :=
  match fuel with
  | O => (r, b, n, err)
  | S fuel' =>
      if bool_decide (n < min)%nat && bool_decide (err = None) then
        let '(r', tail, nn, err') := Reader_Read r (drop n b) in
        ReadAtLeast_loop fuel' r' (take n b ++ tail) min (n + nn) err'
      else (r, b, n, err)
  end.

Definition ReadAtLeast (r : Reader) (b : list Z) (min : nat)
    : Reader * list Z * nat * option error :=
  if decide (length b < min)%nat then (r, b, 0%nat, Some ErrShortBuffer)
  else
    let '(r', b', n, err) := ReadAtLeast_loop (S min) r b min 0 None in
    if decide (min <= n)%nat then (r', b', n, None)
    else if bool_decide (0 < n)%nat && bool_decide (err = Some EOF)
         then (r', b', n, Some ErrUnexpectedEOF)
         else (r', b', n, err).

Definition ReadFull (r : Reader) (b : list Z) : Reader * list Z * nat * option error :=
  ReadAtLeast r b (length b).

(** ** [binary.Write] and [binary.Read] at type [*Packet]

    Every field of [Packet] has a fixed size, so [dataSize] is not negative
    and neither function takes its invalid-type exit. *)

Definition binary_Write (w : list Z) (data : Packet) : run (list Z * option error) :=
  let size := dataSize Packet_type in
  match encoder.value data (mkCoder (make size) 0) with
  | Panics => Panics
  | Undefined => Undefined
  | Returns (_, e) =>
      let '(w', _, err) := Buffer_Write w (buf e) in
      Returns (w', err)
  end.

(** The packet that [data] points to after the call, and the error. *)
Definition binary_Read (r : Reader) (data : Packet) : run (Packet * option error) :=
  let size := dataSize Packet_type in
  let '(_, dbuf, _, err) := ReadFull r (make size) in
  match err with
  | Some e => Returns (data, Some e)
  | None =>
      match decoder.value (mkCoder dbuf 0) with
      | Panics => Panics
      | Undefined => Undefined
      | Returns (v, _) => Returns (v, None)
      end
  end.

(** ** The codec *)

Definition Bytes (p : Packet) : run (list Z * option error) :=
  let bytes : list Z := [] in
  binary_Write bytes p.

(** The returned pointer is never [nil]: it is [Some] of the packet it
    points to. *)
Definition BytesToPacket (ntpPacketBytes : list Z) : run (option Packet * option error) :=
  let packet := Packet_zero in
  let reader := NewReader ntpPacketBytes in
  run_bind (binary_Read reader packet)
    (fun '(packet', err) => Returns (Some packet', err)).

(** ** Package [time] *)

Inductive Location : Type := Local.

(** [time.Time]: the wall and ext words and the location pointer. *)
Record Time : Type := mkTime { wall : Z; ext : Z; loc : option Location }.

(** [time.Time{}]. *)
Definition Time_zero : Time := mkTime 0 0 None.

Definition unixToInternal : Z :=
  (1969 * 365 + 1969 / 4 - 1969 / 100 + 1969 / 400) * 86400.

Definition unixTime (sec nsec : Z) : Time :=
  mkTime (to_uint64 nsec) (to_int64 (sec + unixToInternal)) (Some Local).

(** [time.Unix(sec, nsec)]; Go's [/] on integers truncates toward zero. *)
Definition time_Unix (sec nsec : Z) : Time :=
  let '(sec, nsec) :=
    if (nsec <? 0) || (nsec >=? 10 ^ 9) then
      let n := Z.quot nsec (10 ^ 9) in
      let sec := to_int64 (sec + n) in
      let nsec := to_int64 (nsec - to_int64 (n * 10 ^ 9)) in
      if nsec <? 0 then (to_int64 (sec - 1), to_int64 (nsec + 10 ^ 9))
      else (sec, nsec)
    else (sec, nsec) in
  unixTime sec (to_int32 nsec).

(** ** Package [golang.org/x/sys/unix], as built for linux/amd64 *)

Definition SizeofPtr : Z := 8.
Definition SizeofCmsghdr : Z := 16.
Definition SizeofTimespec : nat := 16.

(** [(salen + salign - 1) & ^(salign - 1)] on [int], which is 64 bits wide
    here: each sum and difference wraps. *)
Definition cmsgAlignOf (salen : Z) : Z :=
  let salign := SizeofPtr in
  Z.land (to_int64 (to_int64 (salen + salign) - 1))
         (Z.lnot (to_int64 (salign - 1))).

Definition CmsgSpace (datalen : Z) : Z :=
  to_int64 (cmsgAlignOf SizeofCmsghdr + cmsgAlignOf datalen).

Record Timespec : Type := mkTimespec { Sec : Z; Nsec : Z }.

Definition Timespec_Unix (ts : Timespec) : Z * Z := (to_int64 (Sec ts), to_int64 (Nsec ts)).

(** A 64-bit signed integer stored in eight bytes, least significant first. *)
Definition native_int64 (bs : list Z) : Z :=
  to_int64 (foldr (fun b acc => to_uint8 b + 2 ^ 8 * acc) 0 bs).

(** The address of [b[k]] cast through [unsafe.Pointer] to a pointer to
    [Timespec], followed by the reads of its two fields. Taking the address
    of [b[k]] is an indexing, which panics outside the slice; the two
    fields then span the sixteen bytes from [k] on, and reading them is
    undefined where they leave [b]. *)
Definition Timespec_at (b : list Z) (k : Z) : run Timespec :=
  if decide (0 <= k < Z.of_nat (length b)) then
    let k := Z.to_nat k in
    if decide (k + SizeofTimespec <= length b)%nat then
      Returns (mkTimespec (native_int64 (take 8 (drop k b)))
                          (native_int64 (take 8 (drop (k + 8) b))))
    else Undefined
  else Panics.

Inductive Sockaddr : Type :=
| SockaddrInet4 (port : Z) (addr : list Z)
| SockaddrInet6 (port : Z) (zoneId : Z) (addr : list Z).

(** What one receive on a socket meets: an error, or a datagram with its
    payload, the control messages queued with it, and its sender. *)
Record Datagram : Type := mkDatagram {
  payload : list Z;
  control : list Z;
  sender : Sockaddr
}.

(** ** Package [net] *)

Record UDPAddr : Type := mkUDPAddr { IP : list Z; Port : Z; Zone : string }.

(** ** The receive functions *)

Section Receive.

(** [net.UDPConn]. *)
Variable UDPConn : Type.

(** Two helpers of the package that are declared outside [packet.go]:
    [connFd] yields the descriptor of the connection or an error, and
    [sockaddrToUDP] turns the sender reported by [Recvmsg] into a
    [net.Addr] ([None] is the [nil] interface value). *)
Variable connFd : UDPConn -> Z * option error.
Variable sockaddrToUDP : option Sockaddr -> option UDPAddr.

(** The operating system: what the one blocking receive of a call finds,
    by connection for [ReadFromUDP] and by descriptor for [Recvmsg]. *)
Variable udp_arrival : UDPConn -> error + (list Z * UDPAddr).
Variable fd_arrival : Z -> error + Datagram.

(** [conn.ReadFromUDP(b)]: [b] after the call, the count, the sender, the
    error. A datagram longer than [b] is cut to [length b]. *)
Definition ReadFromUDP (conn : UDPConn) (b : list Z)
    : list Z * nat * option UDPAddr * option error :=
  match udp_arrival conn with
  | inl e => (b, 0%nat, None, Some e)
  | inr (data, addr) =>
      let '(b', n) := copy b data in
      (b', n, Some addr, None)
  end.

(** [syscall.Recvmsg(fd, p, oob, flags)]: [p] and [oob] after the call,
    then [n], [oobn], [recvflags], [from] and [err]. *)
Definition Recvmsg (fd : Z) (p oob : list Z) (flags : Z)
    : list Z * list Z * nat * nat * Z * option Sockaddr * option error :=
  match fd_arrival fd with
  | inl e => (p, oob, 0%nat, 0%nat, 0, None, Some e)
  | inr d =>
      let '(p', n) := copy p (payload d) in
      let '(oob', oobn) := copy oob (control d) in
      (p', oob', n, oobn, 0, Some (sender d), None)
  end.

Definition ReadNTPPacket (conn : UDPConn)
    : run (option Packet * option UDPAddr * option error) :=
  let buf := make NTPPacketSizeBytes in
  let '(buf, _, remAddr, err) := ReadFromUDP conn buf in
  match err with
  | Some e => Returns (None, None, Some e)
  | None =>
      run_bind (BytesToPacket buf) (fun '(ntp, err) =>
      Returns (ntp, remAddr, err))
  end.

Definition ReadPacketWithKernelTimestamp (conn : UDPConn)
    : run (option Packet * Time * option UDPAddr * option error) :=
  let '(connfd, err) := connFd conn in
  match err with
  | Some e => Returns (None, Time_zero, None, Some e)
  | None =>
      let buf := make NTPPacketSizeBytes in
      let oob := make ControlHeaderSizeBytes in
      let '(buf, oob, _, _, _, sa, err) := Recvmsg connfd buf oob 0 in
      match err with
      | Some e => Returns (None, Time_zero, None, Some e)
      | None =>
          run_bind (Timespec_at oob (CmsgSpace 0)) (fun ts =>
          let hwRxTime := let '(sec, nsec) := Timespec_Unix ts in time_Unix sec nsec in
          run_bind (BytesToPacket buf) (fun '(packet, err) =>
          let remAddr := sockaddrToUDP sa in
          Returns (packet, hwRxTime, remAddr, err)))
      end
  end.

End Receive.

(** ** The wire format, as the packet diagram gives it *)

(** The [n] bytes of [v] in big-endian order: most significant byte first.
    For a negative [v] these are the bytes of its two's complement. *)
Fixpoint big_endian (n : nat) (v : Z) : list Z :=
  match n with
  | O => []
  | S n' => (v / 256 ^ Z.of_nat n') mod 256 :: big_endian n' v
  end.

Definition wire_format (p : Packet) : list Z :=
  big_endian 1 (Settings p) ++
  big_endian 1 (Stratum p) ++
  big_endian 1 (Poll p) ++
  big_endian 1 (Precision p) ++
  big_endian 4 (RootDelay p) ++
  big_endian 4 (RootDispersion p) ++
  big_endian 4 (ReferenceID p) ++
  big_endian 4 (RefTimeSec p) ++
  big_endian 4 (RefTimeFrac p) ++
  big_endian 4 (OrigTimeSec p) ++
  big_endian 4 (OrigTimeFrac p) ++
  big_endian 4 (RxTimeSec p) ++
  big_endian 4 (RxTimeFrac p) ++
  big_endian 4 (TxTimeSec p) ++
  big_endian 4 (TxTimeFrac p).

(** ** Error classes and sample values *)

(** The two ways in which [binary.Read] reports that its input ended before
    the 48 bytes of a packet were read. *)
Definition DecodingError (e : error) : Prop := e = EOF \/ e = ErrUnexpectedEOF.

(** A client request: settings 0x1B, with every field exercised. *)
Definition sample_request : Packet :=
  mkPacket 0x1B 2 (-3) (-20) 0x01020304 0xA0B0C0D0 0xFFFFFFFF
           0x83AA7E80 0 0 0 0 0 0xE4F1A2B3 0xDEADBEEF.

(** Every field at the largest value of its type. *)
Definition Packet_max : Packet :=
  mkPacket 0xFF 0xFF 0x7F 0x7F 0xFFFFFFFF 0xFFFFFFFF 0xFFFFFFFF 0xFFFFFFFF
           0xFFFFFFFF 0xFFFFFFFF 0xFFFFFFFF 0xFFFFFFFF 0xFFFFFFFF 0xFFFFFFFF
           0xFFFFFFFF.

Definition sample_sender : Sockaddr := SockaddrInet4 123 [10; 0; 0; 1].

Definition sample_peer : UDPAddr := mkUDPAddr [10; 0; 0; 1] 123 "".

(** An instance of the two absent helpers, for the closed examples: the
    descriptor is the connection's number, and the sender keeps its
    address and port. *)
Definition sample_connFd (conn : Z) : Z * option error := (conn, None).

Definition sample_sockaddrToUDP (sa : option Sockaddr) : option UDPAddr :=
  match sa with
  | Some (SockaddrInet4 port addr) => Some (mkUDPAddr addr port "")
  | Some (SockaddrInet6 port _ addr) => Some (mkUDPAddr addr port "")
  | None => None
  end.

(** A datagram that arrives with no control message at all, as on a socket
    where receive timestamping was never switched on. *)
Definition arrival_without_control (fd : Z) : error + Datagram :=
  inr (mkDatagram (wire_format sample_request) [] sample_sender).

(** A datagram of two bytes. *)
Definition arrival_of_two_bytes (conn : Z) : error + (list Z * UDPAddr) :=
  inr ([0x1B; 0x02], sample_peer).

(** ** Further vocabulary for the properties *)

Definition is_int64 (x : Z) : Prop := - 2 ^ 63 <= x < 2 ^ 63.

(** The number that a byte sequence denotes when it is read most
    significant byte first. *)
Definition big_endian_value (bs : list Z) : Z :=
  foldl (fun acc b => acc * 256 + b) 0 bs.

(** The [w] bytes of [b] from offset [off] on. *)
Definition window (off w : nat) (b : list Z) : list Z := take w (drop off b).

(** The packet that the diagram of the format assigns to a byte sequence:
    each field is the number in its window, the two exponents being read as
    two's complement. *)
Definition Packet_of_wire (b : list Z) : Packet :=
  mkPacket (big_endian_value (window 0 1 b))
           (big_endian_value (window 1 1 b))
           (to_int8 (big_endian_value (window 2 1 b)))
           (to_int8 (big_endian_value (window 3 1 b)))
           (big_endian_value (window 4 4 b))
           (big_endian_value (window 8 4 b))
           (big_endian_value (window 12 4 b))
           (big_endian_value (window 16 4 b))
           (big_endian_value (window 20 4 b))
           (big_endian_value (window 24 4 b))
           (big_endian_value (window 28 4 b))
           (big_endian_value (window 32 4 b))
           (big_endian_value (window 36 4 b))
           (big_endian_value (window 40 4 b))
           (big_endian_value (window 44 4 b)).

(** The [n] bytes of [v], least significant first; for a negative [v] the
    bytes of its two's complement. *)
Fixpoint little_endian (n : nat) (v : Z) : list Z :=
  match n with
  | O => []
  | S n' => v mod 256 :: little_endian n' (v / 256)
  end.

(** The first byte of a datagram, 0 for the empty datagram. *)
Definition first_byte (data : list Z) : Z := default 0 (head data).

(** The settings bytes with leap indicator 0 or 3, version 1 to 4, mode 3. *)
Definition accepted_settings : list Z :=
  [0x0B; 0x13; 0x1B; 0x23; 0xCB; 0xD3; 0xDB; 0xE3].

(** A control buffer that carries one control message with a timestamp:
    a sixteen-byte header, then seconds and nanoseconds. *)
Definition sample_cmsghdr : list Z :=
  [32; 0; 0; 0; 0; 0; 0; 0; 1; 0; 0; 0; 29; 0; 0; 0].

Definition sample_sec : Z := 1700000000.
Definition sample_nsec : Z := 123456789.

Definition arrival_with_timestamp (fd : Z) : error + Datagram :=
  inr (mkDatagram (wire_format sample_request)
                  (sample_cmsghdr ++ little_endian 8 sample_sec ++
                   little_endian 8 sample_nsec)
                  sample_sender).

(** The same datagram under a different control header. *)
Definition arrival_with_other_header (fd : Z) : error + Datagram :=
  inr (mkDatagram (wire_format sample_request)
                  (replicate 16 0xFF ++ little_endian 8 sample_sec ++
                   little_endian 8 sample_nsec)
                  sample_sender).

Definition arrival_of_request (conn : Z) : error + (list Z * UDPAddr) :=
  inr (wire_format sample_request, sample_peer).

(** The bytes 16 to 31 of the 32-byte control buffer after a receive that
    delivered the control bytes [c]: the place of the timestamp record. *)
Definition timestamp_window (c : list Z) : list Z :=
  drop 16 (take ControlHeaderSizeBytes c ++
           replicate (ControlHeaderSizeBytes - length c) 0).

(** A datagram of one byte. *)
Definition arrival_of_one_byte (conn : Z) : error + (list Z * UDPAddr) :=
  inr ([0x1B], sample_peer).

Definition sample_datagram : Datagram :=
  mkDatagram (wire_format sample_request)
             (sample_cmsghdr ++ little_endian 8 sample_sec ++
              little_endian 8 sample_nsec)
             sample_sender.

(** * Properties *)

(** ** Machine integers *)

Lemma to_uint8_range (x : Z) : is_uint8 (to_uint8 x).
Proof. unfold is_uint8, to_uint8. apply Z.mod_pos_bound. lia. Qed.

Lemma to_uint32_range (x : Z) : is_uint32 (to_uint32 x).
Proof. unfold is_uint32, to_uint32. apply Z.mod_pos_bound. lia. Qed.

Lemma to_int8_range (x : Z) : is_int8 (to_int8 x).
Proof.
  unfold is_int8, to_int8.
  pose proof (Z.mod_pos_bound (x + 2 ^ 7) (2 ^ 8)). lia.
Qed.

Lemma to_uint8_small (x : Z) : is_uint8 x -> to_uint8 x = x.
Proof. intros H. apply Z.mod_small, H. Qed.

Lemma to_uint32_small (x : Z) : is_uint32 x -> to_uint32 x = x.
Proof. intros H. apply Z.mod_small, H. Qed.

Lemma to_int8_to_uint8 (x : Z) : is_int8 x -> to_int8 (to_uint8 x) = x.
Proof.
  unfold is_int8, to_int8, to_uint8. intros H.
  rewrite Zplus_mod_idemp_l.
  rewrite Z.mod_small; lia.
Qed.

Lemma is_uint32_testbit (x : Z) :
  is_uint32 x <-> (forall n, 0 <= n -> Z.testbit x n = (n <? 32) && Z.testbit x n).
Proof.
  split.
  - intros H n Hn. rewrite <- (to_uint32_small x H) at 1.
    unfold to_uint32. apply Z.testbit_mod_pow2. lia.
  - intros H. replace x with (to_uint32 x); [apply to_uint32_range |].
    apply Z.bits_inj'. intros n Hn. unfold to_uint32.
    rewrite Z.testbit_mod_pow2 by lia. symmetry. apply H, Hn.
Qed.

Lemma is_uint32_lor (a b : Z) : is_uint32 a -> is_uint32 b -> is_uint32 (Z.lor a b).
Proof.
  rewrite !is_uint32_testbit. intros Ha Hb n Hn.
  rewrite Z.lor_spec, (Ha n Hn), (Hb n Hn).
  destruct (n <? 32); reflexivity.
Qed.

Lemma combine_range (b0 b1 b2 b3 : Z) : is_uint32 (BigEndian.combine b0 b1 b2 b3).
Proof.
  unfold BigEndian.combine.
  repeat apply is_uint32_lor; apply to_uint32_range.
Qed.

(** The four bytes that [PutUint32] stores are put back together by
    [Uint32]. *)
Lemma Uint32_PutUint32 (v : Z) :
  is_uint32 v ->
  BigEndian.combine (to_uint8 (Z.shiftr v 24)) (to_uint8 (Z.shiftr v 16))
                    (to_uint8 (Z.shiftr v 8)) (to_uint8 v) = v.
Proof.
  intros Hv. unfold BigEndian.combine. apply Z.bits_inj'. intros n Hn.
  rewrite (proj1 (is_uint32_testbit v) Hv n Hn).
  unfold to_uint32, to_uint8.
  repeat first
    [ rewrite Z.lor_spec
    | rewrite Z.testbit_mod_pow2 by lia
    | rewrite Z.shiftl_spec by lia
    | rewrite Z.shiftr_spec by lia ].
  destruct (Z.ltb_spec n 8); [| destruct (Z.ltb_spec n 16);
    [| destruct (Z.ltb_spec n 24); [| destruct (Z.ltb_spec n 32)]]].
  all: repeat match goal with
       | |- context [?a <? ?b] =>
           first [ rewrite (proj2 (Z.ltb_lt a b)) by lia
                 | rewrite (proj2 (Z.ltb_ge a b)) by lia ]
       end.
  all: rewrite ?(Z.testbit_neg_r (Z.shiftr v 8) (n - 8)) by lia.
  all: rewrite ?(Z.testbit_neg_r (Z.shiftr v 16) (n - 16)) by lia.
  all: rewrite ?(Z.testbit_neg_r (Z.shiftr v 24) (n - 24)) by lia.
  all: rewrite ?Z.shiftr_spec by lia.
  all: rewrite ?orb_false_r, ?orb_false_l.
  all: cbn [andb]; try reflexivity.
  all: f_equal; lia.
Qed.

(** The bytes stored by [PutUint32], read as the packet diagram does. *)
Lemma PutUint32_big_endian (v : Z) : BigEndian.split v = big_endian 4 v.
Proof.
  unfold BigEndian.split, big_endian, to_uint8. rewrite !Z.shiftr_div_pow2 by lia.
  change (256 ^ Z.of_nat 3) with (2 ^ 24). change (256 ^ Z.of_nat 2) with (2 ^ 16).
  change (256 ^ Z.of_nat 1) with (2 ^ 8). change (256 ^ Z.of_nat 0) with 1.
  change (2 ^ 8) with 256. rewrite Z.div_1_r. reflexivity.
Qed.

Lemma big_endian_1 (v : Z) : big_endian 1 v = [to_uint8 v].
Proof.
  unfold big_endian, to_uint8. change (256 ^ Z.of_nat 0) with 1.
  rewrite Z.div_1_r. reflexivity.
Qed.

(** ** Settings byte *)


Lemma settings_acceptedb_spec (b : Z) :
  settings_acceptedb b = true <-> settings_accepted b.
Proof.
  unfold settings_acceptedb, settings_accepted.
  rewrite !andb_true_iff, orb_true_iff, !Z.eqb_eq, !Z.leb_le.
  tauto.
Qed.

Lemma all_bytes_complete (b : Z) : is_uint8 b -> In b all_bytes.
Proof.
  intros [Hlo Hhi]. unfold all_bytes.
  apply in_map_iff. exists (Z.to_nat b). split; [lia |].
  apply in_seq. change (2 ^ 8) with 256 in Hhi. lia.
Qed.

Lemma ValidSettingsFormat_table :
  forallb (fun b => eqb (ValidSettingsFormat (with_settings b)) (settings_acceptedb b))
          all_bytes = true.
Proof. vm_compute. reflexivity. Qed.

Lemma ValidSettingsFormat_only_Settings (p : Packet) :
  ValidSettingsFormat p = ValidSettingsFormat (with_settings (Settings p)).
Proof. reflexivity. Qed.

(** C3. [ValidSettingsFormat] returns true exactly when, in the settings
    byte of the packet, the leap indicator (bits 7-6) is 0 or 3, the
    version (bits 5-3) is between 1 and 4 and the mode (bits 2-0) is 3. In
    particular it returns true for the settings 0x1B and 0xE3 and false for
    0x1C and 0x9B. It is a function of the byte alone, defined on all 256
    values. *)
Theorem ValidSettingsFormat_iff (p : Packet) :
  is_uint8 (Settings p) ->
  (ValidSettingsFormat p = true <-> settings_accepted (Settings p)) /\
  (Settings p = 0x1B -> ValidSettingsFormat p = true) /\
  (Settings p = 0xE3 -> ValidSettingsFormat p = true) /\
  (Settings p = 0x1C -> ValidSettingsFormat p = false) /\
  (Settings p = 0x9B -> ValidSettingsFormat p = false).
Proof.
  intros Hb. split.
  - rewrite ValidSettingsFormat_only_Settings, <- settings_acceptedb_spec.
    pose proof ValidSettingsFormat_table as Htab.
    rewrite forallb_forall in Htab.
    specialize (Htab _ (all_bytes_complete _ Hb)).
    apply eqb_prop in Htab. rewrite Htab. reflexivity.
  - rewrite ValidSettingsFormat_only_Settings.
    repeat split; intros ->; reflexivity.
Qed.

Lemma ValidSettingsFormat_iff_witness :
  is_uint8 (Settings sample_request) /\
  (ValidSettingsFormat sample_request = true <->
   settings_accepted (Settings sample_request)) /\
  ValidSettingsFormat sample_request = true.
Proof.
  assert (H : is_uint8 (Settings sample_request))
    by (unfold is_uint8; cbn; lia).
  pose proof (ValidSettingsFormat_iff sample_request H) as (Hiff & H1B & _).
  split; [exact H | split; [exact Hiff | apply H1B; reflexivity]].
Defined.

(** ** Readers *)

Lemma copy_length (dst src : list Z) : length (copy dst src).1 = length dst.
Proof.
  unfold copy. cbn. rewrite length_app, length_take, length_drop. lia.
Qed.

Lemma Reader_Read_EOF (r : Reader) (b : list Z) :
  (length (s r) <= i r)%nat -> Reader_Read r b = (r, b, 0%nat, Some EOF).
Proof. intros H. unfold Reader_Read. rewrite decide_True by exact H. reflexivity. Qed.

Lemma Reader_Read_data (r : Reader) (b : list Z) :
  (i r < length (s r))%nat ->
  Reader_Read r b =
    let src := drop (i r) (s r) in
    let n := Nat.min (length b) (length src) in
    (mkReader (s r) (i r + n), take n src ++ drop n b, n, None).
Proof. intros H. unfold Reader_Read. rewrite decide_False by lia. reflexivity. Qed.

Lemma ReadAtLeast_loop_stop fuel r b min n err :
  (min <= n)%nat \/ err <> None ->
  ReadAtLeast_loop fuel r b min n err = (r, b, n, err).
Proof.
  intros H. destruct fuel as [| fuel]; [reflexivity |]. cbn [ReadAtLeast_loop].
  destruct H as [H | H].
  - rewrite bool_decide_eq_false_2 by lia. reflexivity.
  - rewrite (bool_decide_eq_false_2 (err = None)) by exact H.
    rewrite andb_false_r. reflexivity.
Qed.

Lemma ReadAtLeast_loop_step fuel r b min n :
  (n < min)%nat ->
  ReadAtLeast_loop (S fuel) r b min n None =
    let '(r', tail, nn, err') := Reader_Read r (drop n b) in
    ReadAtLeast_loop fuel r' (take n b ++ tail) min (n + nn) err'.
Proof.
  intros H. cbn [ReadAtLeast_loop].
  rewrite bool_decide_eq_true_2 by exact H.
  rewrite bool_decide_eq_true_2 by reflexivity.
  reflexivity.
Qed.

(** The loop always leaves through its own condition when it is given
    [min - n + 1] rounds: a round either moves [n] forward or sets the
    error. *)
Lemma ReadAtLeast_loop_exits fuel r b min n err :
  (min <= length b)%nat ->
  (min - n + (if err is None then 1 else 0) <= fuel)%nat ->
  let '(_, b', n', err') := ReadAtLeast_loop fuel r b min n err in
  length b' = length b /\ ((min <= n')%nat \/ err' <> None).
Proof.
  revert r b n err.
  induction fuel as [| fuel IH]; intros r b n err Hb Hfuel.
  - cbn. destruct err; [split; [reflexivity | right; discriminate] | lia].
  - destruct err as [e |].
    { rewrite ReadAtLeast_loop_stop by (right; discriminate).
      split; [reflexivity | right; discriminate]. }
    destruct (decide (n < min)%nat) as [Hn | Hn].
    2: { rewrite ReadAtLeast_loop_stop by (left; lia).
         split; [reflexivity | left; lia]. }
    rewrite ReadAtLeast_loop_step by exact Hn.
    destruct (decide (length (s r) <= i r)%nat) as [Hr | Hr].
    + rewrite Reader_Read_EOF by exact Hr.
      rewrite take_drop.
      rewrite ReadAtLeast_loop_stop by (right; discriminate).
      split; [reflexivity | right; discriminate].
    + rewrite Reader_Read_data by lia. cbn zeta.
      set (k := Nat.min (length (drop n b)) (length (drop (i r) (s r)))).
      assert (Hk : (0 < k <= length b - n)%nat).
      { subst k. rewrite !length_drop. lia. }
      set (b1 := take n b ++ take k (drop (i r) (s r)) ++ drop k (drop n b)).
      assert (Hb1 : length b1 = length b).
      { subst b1 k. rewrite !length_app, !length_take, !length_drop. lia. }
      change (let '(_, b', n', err') :=
                ReadAtLeast_loop fuel (mkReader (s r) (i r + k)) b1 min (n + k) None in
              length b' = length b /\ ((min <= n')%nat \/ err' <> None)).
      specialize (IH (mkReader (s r) (i r + k)) b1 (n + k)%nat None).
      destruct (ReadAtLeast_loop fuel _ b1 min (n + k) None) as [[[r2 b2] n2] err2].
      rewrite <- Hb1. apply IH; lia.
Qed.

(** More rounds than that change nothing. *)
Lemma ReadAtLeast_loop_fuel fuel fuel' r b min n err :
  (min <= length b)%nat ->
  (min - n + (if err is None then 1 else 0) <= fuel)%nat ->
  (fuel <= fuel')%nat ->
  ReadAtLeast_loop fuel' r b min n err = ReadAtLeast_loop fuel r b min n err.
Proof.
  revert fuel' r b n err.
  induction fuel as [| fuel IH]; intros fuel' r b n err Hb Hfuel Hle.
  - destruct err; [| lia].
    rewrite !ReadAtLeast_loop_stop by (right; discriminate). reflexivity.
  - destruct fuel' as [| fuel']; [lia |].
    destruct err as [e |].
    { rewrite !ReadAtLeast_loop_stop by (right; discriminate). reflexivity. }
    destruct (decide (n < min)%nat) as [Hn | Hn].
    2: { rewrite !ReadAtLeast_loop_stop by (left; lia). reflexivity. }
    rewrite !ReadAtLeast_loop_step by exact Hn.
    destruct (decide (length (s r) <= i r)%nat) as [Hr | Hr].
    + rewrite Reader_Read_EOF by exact Hr.
      rewrite !ReadAtLeast_loop_stop by (right; discriminate). reflexivity.
    + rewrite Reader_Read_data by lia. cbn zeta.
      set (k := Nat.min (length (drop n b)) (length (drop (i r) (s r)))).
      assert (Hk : (0 < k <= length b - n)%nat).
      { subst k. rewrite !length_drop. lia. }
      apply IH; [| lia | lia].
      subst k. rewrite !length_app, !length_take, !length_drop. lia.
Qed.

Lemma ReadFull_enough (b dst : list Z) :
  (0 < length dst <= length b)%nat ->
  ReadFull (NewReader b) dst =
    (mkReader b (length dst), take (length dst) b, length dst, None).
Proof.
  intros H. unfold ReadFull, ReadAtLeast.
  rewrite decide_False by lia.
  rewrite ReadAtLeast_loop_step by lia.
  rewrite Reader_Read_data by (cbn; lia). cbn zeta. cbn [NewReader s i].
  rewrite !drop_0.
  replace (Nat.min (length dst) (length b)) with (length dst) by lia.
  rewrite ReadAtLeast_loop_stop by (left; lia).
  rewrite decide_True by lia.
  rewrite drop_all, app_nil_r. reflexivity.
Qed.

Lemma ReadFull_short (b dst : list Z) :
  (length b < length dst)%nat ->
  ReadFull (NewReader b) dst =
    (mkReader b (length b), b ++ drop (length b) dst, length b,
     Some (if decide (length b = 0)%nat then EOF else ErrUnexpectedEOF)).
Proof.
  intros H. unfold ReadFull, ReadAtLeast.
  rewrite decide_False by lia.
  rewrite ReadAtLeast_loop_step by lia.
  destruct (decide (length b = 0)%nat) as [Hb | Hb].
  - rewrite Reader_Read_EOF by (cbn; lia).
    rewrite ReadAtLeast_loop_stop by (right; discriminate).
    rewrite decide_False by lia.
    rewrite bool_decide_eq_false_2 by lia. cbn [andb].
    destruct b; [| discriminate]. reflexivity.
  - rewrite Reader_Read_data by (cbn; lia). cbn zeta. cbn [NewReader s i].
    rewrite !drop_0.
    replace (Nat.min (length dst) (length b)) with (length b) by lia.
    rewrite firstn_all. cbn [take app Nat.add].
    destruct (length dst) as [| m] eqn:Hm; [lia |].
    rewrite ReadAtLeast_loop_step by lia.
    rewrite Reader_Read_EOF by (cbn; lia).
    rewrite take_drop.
    rewrite ReadAtLeast_loop_stop by (right; discriminate).
    rewrite decide_False by lia.
    rewrite Nat.add_0_r.
    rewrite bool_decide_eq_true_2 by lia.
    rewrite bool_decide_eq_true_2 by reflexivity.
    reflexivity.
Qed.

(** ** The codec *)

Lemma Bytes_stored (p : Packet) :
  Bytes p =
    Returns ([Settings p; Stratum p; to_uint8 (Poll p); to_uint8 (Precision p)] ++
             BigEndian.split (RootDelay p) ++
             BigEndian.split (RootDispersion p) ++
             BigEndian.split (ReferenceID p) ++
             BigEndian.split (RefTimeSec p) ++
             BigEndian.split (RefTimeFrac p) ++
             BigEndian.split (OrigTimeSec p) ++
             BigEndian.split (OrigTimeFrac p) ++
             BigEndian.split (RxTimeSec p) ++
             BigEndian.split (RxTimeFrac p) ++
             BigEndian.split (TxTimeSec p) ++
             BigEndian.split (TxTimeFrac p), None).
Proof. reflexivity. Qed.

Lemma BytesToPacket_enough (b : list Z) :
  (NTPPacketSizeBytes <= length b)%nat ->
  BytesToPacket b =
    run_bind (decoder.value (mkCoder (take NTPPacketSizeBytes b) 0))
             (fun '(v, _) => Returns (Some v, None)).
Proof.
  intros H. unfold BytesToPacket, binary_Read.
  change (dataSize Packet_type) with NTPPacketSizeBytes.
  rewrite ReadFull_enough by (unfold make; rewrite length_replicate; unfold NTPPacketSizeBytes in *; lia).
  unfold make. rewrite length_replicate.
  destruct (decoder.value _) as [| | [v c]]; reflexivity.
Qed.

Lemma BytesToPacket_short (b : list Z) :
  (length b < NTPPacketSizeBytes)%nat ->
  BytesToPacket b =
    Returns (Some Packet_zero,
             Some (if decide (length b = 0)%nat then EOF else ErrUnexpectedEOF)).
Proof.
  intros H. unfold BytesToPacket, binary_Read.
  change (dataSize Packet_type) with NTPPacketSizeBytes.
  rewrite ReadFull_short by (unfold make; rewrite length_replicate; exact H).
  reflexivity.
Qed.

Ltac explode_list b H :=
  do 48 (destruct b as [| ? b]; [cbn in H; unfold NTPPacketSizeBytes in H; lia |]).

Lemma decoder_value_enough (b : list Z) :
  length b = NTPPacketSizeBytes ->
  exists p, decoder.value (mkCoder b 0) = Returns (p, mkCoder b NTPPacketSizeBytes) /\
            (Forall is_uint8 b -> Packet_typed p).
Proof.
  intros H. explode_list b H.
  destruct b; [| discriminate].
  eexists. split; [reflexivity |].
  intros HF.
  repeat match goal with
         | HF : Forall _ (_ :: _) |- _ => apply Forall_cons in HF; destruct HF as [? HF]
         end.
  constructor; cbn [Settings Stratum Poll Precision RootDelay RootDispersion
    ReferenceID RefTimeSec RefTimeFrac OrigTimeSec OrigTimeFrac RxTimeSec
    RxTimeFrac TxTimeSec TxTimeFrac];
    first [assumption | apply to_int8_range | apply combine_range].
Qed.

Lemma decoder_value_Bytes (p : Packet) (bs : list Z) :
  Packet_typed p ->
  Bytes p = Returns (bs, None) ->
  decoder.value (mkCoder bs 0) = Returns (p, mkCoder bs NTPPacketSizeBytes).
Proof.
  intros Hp. rewrite Bytes_stored. intros [= <-].
  destruct Hp. destruct p. cbn in *.
  unfold BigEndian.split.
  cbv -[to_uint8 to_int8 BigEndian.combine Z.shiftr].
  rewrite !to_int8_to_uint8 by assumption.
  rewrite !Uint32_PutUint32 by assumption.
  reflexivity.
Qed.

Lemma BytesToPacket_exact (b : list Z) :
  length b = NTPPacketSizeBytes ->
  exists p, BytesToPacket b = Returns (Some p, None) /\
            (Forall is_uint8 b -> Packet_typed p).
Proof.
  intros H. rewrite BytesToPacket_enough by lia.
  rewrite take_ge by lia.
  destruct (decoder_value_enough b H) as (p & Hp & Htyped).
  exists p. rewrite Hp. split; [reflexivity | exact Htyped].
Qed.

(** C2. Decoding the bytes produced by encoding a packet gives the packet
    back: [Bytes] returns a byte sequence and no error, and [BytesToPacket]
    on that sequence returns the same packet and no error, whatever the
    values of the fields within their types. *)
Theorem BytesToPacket_Bytes (p : Packet) :
  Packet_typed p ->
  exists bs, Bytes p = Returns (bs, None) /\
             BytesToPacket bs = Returns (Some p, None).
Proof.
  intros Hp. eexists. split; [apply Bytes_stored |].
  rewrite BytesToPacket_enough by (cbn; unfold NTPPacketSizeBytes; lia).
  rewrite take_ge by (cbn; unfold NTPPacketSizeBytes; lia).
  rewrite (decoder_value_Bytes p _ Hp (Bytes_stored p)).
  reflexivity.
Qed.

Lemma BytesToPacket_Bytes_witness :
  Packet_typed sample_request /\
  exists bs, Bytes sample_request = Returns (bs, None) /\
             BytesToPacket bs = Returns (Some sample_request, None).
Proof.
  split.
  - constructor; unfold is_uint8, is_int8, is_uint32; cbn; lia.
  - apply (BytesToPacket_Bytes sample_request).
    constructor; unfold is_uint8, is_int8, is_uint32; cbn; lia.
Defined.

(** C4. Encoding a packet yields exactly 48 bytes: the fields in the order
    Settings, Stratum, Poll, Precision, RootDelay, RootDispersion,
    ReferenceID, then the four timestamps as seconds and fraction, each
    field most significant byte first. *)
Theorem Bytes_wire_format (p : Packet) :
  Packet_typed p ->
  Bytes p = Returns (wire_format p, None) /\
  length (wire_format p) = NTPPacketSizeBytes.
Proof.
  intros Hp. rewrite Bytes_stored. unfold wire_format.
  rewrite !big_endian_1, <- !PutUint32_big_endian.
  rewrite (to_uint8_small (Settings p)) by apply Hp.
  rewrite (to_uint8_small (Stratum p)) by apply Hp.
  split; reflexivity.
Qed.

Example Bytes_Packet_zero :
  Bytes Packet_zero = Returns (replicate NTPPacketSizeBytes 0, None).
Proof. reflexivity. Qed.

Example Bytes_Packet_max :
  Bytes Packet_max =
    Returns ([0xFF; 0xFF; 0x7F; 0x7F] ++ replicate 44 0xFF, None).
Proof. vm_compute. reflexivity. Qed.

Lemma Bytes_wire_format_witness :
  Packet_typed sample_request /\
  Bytes sample_request = Returns (wire_format sample_request, None) /\
  length (wire_format sample_request) = NTPPacketSizeBytes.
Proof.
  split.
  - constructor; unfold is_uint8, is_int8, is_uint32; cbn; lia.
  - apply (Bytes_wire_format sample_request).
    constructor; unfold is_uint8, is_int8, is_uint32; cbn; lia.
Defined.

(** C5. [BytesToPacket] returns a decoding error, without a panic, for
    every input shorter than 48 bytes; for every input of 48 bytes or more
    it returns no error and the packet read from the first 48 bytes, the
    bytes after them being ignored. Nothing about the content is checked:
    every sequence of 48 bytes yields a packet. *)
Theorem BytesToPacket_by_length (b : list Z) :
  ((length b < NTPPacketSizeBytes)%nat ->
     exists pkt e, BytesToPacket b = Returns (pkt, Some e) /\ DecodingError e) /\
  ((NTPPacketSizeBytes <= length b)%nat ->
     exists p, BytesToPacket b = Returns (Some p, None) /\
               BytesToPacket (take NTPPacketSizeBytes b) = Returns (Some p, None) /\
               (Forall is_uint8 b -> Packet_typed p)).
Proof.
  split; intros H.
  - rewrite BytesToPacket_short by exact H.
    do 2 eexists. split; [reflexivity |].
    unfold DecodingError. destruct (decide (length b = 0)%nat); auto.
  - assert (Hlen : length (take NTPPacketSizeBytes b) = NTPPacketSizeBytes)
      by (rewrite length_take; lia).
    destruct (BytesToPacket_exact _ Hlen) as (p & Hp & Htyped).
    exists p. split; [| split].
    + rewrite BytesToPacket_enough by exact H.
      rewrite BytesToPacket_enough in Hp by lia.
      rewrite take_take, Nat.min_id in Hp. exact Hp.
    + exact Hp.
    + intros HF. apply Htyped, Forall_take, HF.
Qed.

Lemma BytesToPacket_by_length_witness :
  (exists pkt e, BytesToPacket [0x1B; 0x02; 0x03] = Returns (pkt, Some e) /\
                 DecodingError e) /\
  (exists p, BytesToPacket (replicate 50 0xFF) = Returns (Some p, None) /\
             BytesToPacket (take NTPPacketSizeBytes (replicate 50 0xFF))
               = Returns (Some p, None) /\
             (Forall is_uint8 (replicate 50 0xFF) -> Packet_typed p)).
Proof.
  split.
  - apply (proj1 (BytesToPacket_by_length [0x1B; 0x02; 0x03])).
    unfold NTPPacketSizeBytes. cbn. lia.
  - apply (proj2 (BytesToPacket_by_length (replicate 50 0xFF))).
    unfold NTPPacketSizeBytes. cbn. lia.
Defined.

(** C6. Decoding 48 zero bytes returns no error and the packet whose fields
    are all zero; [ValidSettingsFormat] rejects that packet, its mode being
    0 and not 3. *)
Theorem BytesToPacket_zeros :
  BytesToPacket (replicate NTPPacketSizeBytes 0) = Returns (Some Packet_zero, None) /\
  ValidSettingsFormat Packet_zero = false /\
  packet_mode (Settings Packet_zero) = 0.
Proof. repeat split; vm_compute; reflexivity. Qed.

(** C9. Encoding never fails: a write to the in-memory buffer reports no
    error, and [Bytes] returns a nil error for every packet. *)
Theorem Bytes_never_fails :
  (forall w data : list Z, (Buffer_Write w data).2 = None) /\
  (forall p : Packet, exists bs, Bytes p = Returns (bs, None)).
Proof.
  split.
  - reflexivity.
  - intros p. eexists. apply Bytes_stored.
Qed.

(** C10. When [BytesToPacket] fails on a short input it still returns a
    pointer that is not nil, to a packet whose fields are all zero: no field
    has been filled from the bytes that were there. *)
Theorem BytesToPacket_short_zero (b : list Z) :
  (length b < NTPPacketSizeBytes)%nat ->
  exists e, BytesToPacket b = Returns (Some Packet_zero, Some e).
Proof.
  intros H. rewrite BytesToPacket_short by exact H. eexists. reflexivity.
Qed.

Lemma BytesToPacket_short_zero_witness :
  (length (replicate 47 0xFF) < NTPPacketSizeBytes)%nat /\
  exists e, BytesToPacket (replicate 47 0xFF) = Returns (Some Packet_zero, Some e).
Proof.
  assert (H : (length (replicate 47 0xFF) < NTPPacketSizeBytes)%nat)
    by (unfold NTPPacketSizeBytes; cbn; lia).
  split; [exact H | apply (BytesToPacket_short_zero (replicate 47 0xFF) H)].
Defined.

(** ** The receive functions *)

Lemma copy_make (n : nat) (data : list Z) :
  copy (make n) data =
    (take n data ++ replicate (n - length data) 0, Nat.min n (length data)).
Proof.
  unfold copy, make. rewrite length_replicate. f_equal.
  rewrite drop_replicate.
  destruct (Nat.le_gt_cases n (length data)) as [H | H].
  - rewrite Nat.min_l by exact H.
    replace (n - length data)%nat with 0%nat by lia.
    rewrite Nat.sub_diag. reflexivity.
  - rewrite Nat.min_r by lia.
    rewrite (take_ge data n) by lia. rewrite firstn_all. reflexivity.
Qed.

Lemma copy_make_length (n : nat) (data : list Z) :
  length (take n data ++ replicate (n - length data) 0) = n.
Proof. rewrite length_app, length_take, length_replicate. lia. Qed.

Lemma CmsgSpace_0 : CmsgSpace 0 = 16.
Proof. reflexivity. Qed.

Lemma Timespec_at_header (b : list Z) :
  length b = ControlHeaderSizeBytes ->
  Timespec_at b (CmsgSpace 0) =
    Returns (mkTimespec (native_int64 (take 8 (drop 16 b)))
                        (native_int64 (take 8 (drop 24 b)))).
Proof.
  intros H. unfold Timespec_at. rewrite CmsgSpace_0, H.
  reflexivity.
Qed.

Lemma drop_short_control (c : list Z) (k : nat) :
  (length c <= k <= ControlHeaderSizeBytes)%nat ->
  drop k (take ControlHeaderSizeBytes c ++
          replicate (ControlHeaderSizeBytes - length c) 0)
  = replicate (ControlHeaderSizeBytes - k) 0.
Proof.
  intros H. rewrite take_ge by lia.
  rewrite drop_app_ge by lia. rewrite drop_replicate. f_equal. lia.
Qed.

Section ReceiveProperties.

Variable UDPConn : Type.
Variable connFd : UDPConn -> Z * option error.
Variable sockaddrToUDP : option Sockaddr -> option UDPAddr.
Variable udp_arrival : UDPConn -> error + (list Z * UDPAddr).
Variable fd_arrival : Z -> error + Datagram.

Local Abbreviation ReadNTPPacket' := (ReadNTPPacket UDPConn udp_arrival).
Local Abbreviation ReadPacketWithKernelTimestamp' :=
  (ReadPacketWithKernelTimestamp UDPConn connFd sockaddrToUDP fd_arrival).

Lemma Recvmsg_data (fd : Z) (d : Datagram) (n m : nat) (flags : Z) :
  fd_arrival fd = inr d ->
  Recvmsg fd_arrival fd (make n) (make m) flags =
    (take n (payload d) ++ replicate (n - length (payload d)) 0,
     take m (control d) ++ replicate (m - length (control d)) 0,
     Nat.min n (length (payload d)), Nat.min m (length (control d)),
     0, Some (sender d), None).
Proof. intros H. unfold Recvmsg. rewrite H, !copy_make. reflexivity. Qed.

(** C8. [ReadNTPPacket] decodes its own 48-byte buffer whatever the
    length of the datagram received: when the receive succeeds the call
    returns no error, also for a datagram shorter than 48 bytes, and the
    packet is the one decoded from the datagram followed by zero bytes up
    to 48. *)
Theorem ReadNTPPacket_short_datagram (conn : UDPConn) (data : list Z) (addr : UDPAddr) :
  udp_arrival conn = inr (data, addr) ->
  exists p,
    ReadNTPPacket' conn = Returns (Some p, Some addr, None) /\
    BytesToPacket (take NTPPacketSizeBytes data ++
                   replicate (NTPPacketSizeBytes - length data) 0)
      = Returns (Some p, None) /\
    (Forall is_uint8 data -> Packet_typed p).
Proof.
  intros H. unfold ReadNTPPacket, ReadFromUDP. rewrite H, copy_make.
  destruct (BytesToPacket_exact _ (copy_make_length NTPPacketSizeBytes data))
    as (p & Hp & Htyped).
  exists p. rewrite Hp. split; [reflexivity | split; [reflexivity |]].
  intros HF. apply Htyped, Forall_app. split.
  - apply Forall_take, HF.
  - apply Forall_replicate. unfold is_uint8. lia.
Qed.

(** C1, as the code has it. [ReadPacketWithKernelTimestamp] makes no
    check of how many control bytes were received and has no error for a
    missing timestamp: once the descriptor is obtained and the receive
    returns a datagram, the call succeeds, and the timestamp is the record
    read at offset [CmsgSpace(0)] = 16 of the function's own 32-byte
    control buffer. The record ends where that buffer ends, so the read
    stays inside it, and the bytes that the receive did not fill are read
    as zero: with at most 16 control bytes received the timestamp is
    [time.Unix(0, 0)]. *)
Theorem ReadPacketWithKernelTimestamp_unchecked (conn : UDPConn) (fd : Z) (d : Datagram) :
  connFd conn = (fd, None) ->
  fd_arrival fd = inr d ->
  let oob := take ControlHeaderSizeBytes (control d) ++
             replicate (ControlHeaderSizeBytes - length (control d)) 0 in
  let ts := mkTimespec (native_int64 (take 8 (drop 16 oob)))
                       (native_int64 (take 8 (drop 24 oob))) in
  Timespec_at oob (CmsgSpace 0) = Returns ts /\
  (exists p,
     ReadPacketWithKernelTimestamp' conn =
       Returns (Some p, time_Unix (to_int64 (Sec ts)) (to_int64 (Nsec ts)),
                sockaddrToUDP (Some (sender d)), None)) /\
  ((length (control d) <= 16)%nat ->
     time_Unix (to_int64 (Sec ts)) (to_int64 (Nsec ts)) = time_Unix 0 0).
Proof.
  intros Hfd Harr oob ts.
  assert (Hts : Timespec_at oob (CmsgSpace 0) = Returns ts)
    by (apply Timespec_at_header, copy_make_length).
  split; [exact Hts | split].
  - unfold ReadPacketWithKernelTimestamp. rewrite Hfd.
    rewrite (Recvmsg_data _ _ _ _ _ Harr).
    fold oob. rewrite Hts.
    destruct (BytesToPacket_exact _ (copy_make_length NTPPacketSizeBytes (payload d)))
      as (p & Hp & _).
    exists p. cbn [run_bind]. rewrite Hp. reflexivity.
  - intros Hshort. subst ts oob. cbn [Sec Nsec].
    rewrite !drop_short_control by (unfold ControlHeaderSizeBytes; lia).
    reflexivity.
Qed.

End ReceiveProperties.

Lemma ReadNTPPacket_short_datagram_witness :
  arrival_of_two_bytes 7 = inr ([0x1B; 0x02], sample_peer) /\
  exists p,
    ReadNTPPacket Z arrival_of_two_bytes 7 = Returns (Some p, Some sample_peer, None) /\
    BytesToPacket (take NTPPacketSizeBytes [0x1B; 0x02] ++
                   replicate (NTPPacketSizeBytes - length [0x1B; 0x02]) 0)
      = Returns (Some p, None) /\
    (Forall is_uint8 [0x1B; 0x02] -> Packet_typed p).
Proof.
  split; [reflexivity |].
  apply (ReadNTPPacket_short_datagram Z arrival_of_two_bytes 7 [0x1B; 0x02] sample_peer).
  reflexivity.
Defined.

Lemma ReadPacketWithKernelTimestamp_unchecked_witness :
  sample_connFd 7 = (7, None) /\
  arrival_without_control 7
    = inr (mkDatagram (wire_format sample_request) [] sample_sender) /\
  exists p,
    ReadPacketWithKernelTimestamp Z sample_connFd sample_sockaddrToUDP
        arrival_without_control 7
      = Returns (Some p, time_Unix 0 0, Some sample_peer, None).
Proof.
  split; [reflexivity | split; [reflexivity |]].
  destruct (ReadPacketWithKernelTimestamp_unchecked Z sample_connFd
              sample_sockaddrToUDP arrival_without_control 7 7
              (mkDatagram (wire_format sample_request) [] sample_sender)
              eq_refl eq_refl) as (_ & (p & Hp) & Hzero).
  exists p. rewrite Hp, Hzero; [reflexivity | cbn; lia].
Defined.

(** C1 as stated fails: a datagram that arrives with no control message at
    all is not rejected. The call returns a nil error. *)
Lemma short_control_not_rejected :
  ~ (forall (conn : Z) (d : Datagram),
       arrival_without_control (sample_connFd conn).1 = inr d ->
       Z.of_nat (length (control d)) < CmsgSpace 0 + Z.of_nat SizeofTimespec ->
       exists ntp hwRxTime remAddr e,
         ReadPacketWithKernelTimestamp Z sample_connFd sample_sockaddrToUDP
             arrival_without_control conn
           = Returns (ntp, hwRxTime, remAddr, Some e)).
Proof.
  intros H.
  destruct (H 7 _ eq_refl) as (ntp & hw & addr & e & He); [reflexivity |].
  vm_compute in He. discriminate He.
Qed.


(** * Further properties *)

(** ** Arithmetic of the byte orders *)

Lemma to_uint8_to_int8 (b : Z) : is_uint8 b -> to_uint8 (to_int8 b) = b.
Proof.
  unfold is_uint8, to_uint8, to_int8.
  change (2 ^ 8) with 256. change (2 ^ 7) with 128.
  intros H. Z.div_mod_to_equations. lia.
Qed.

Lemma to_int64_range (x : Z) : is_int64 (to_int64 x).
Proof.
  unfold is_int64, to_int64.
  pose proof (Z.mod_pos_bound (x + 2 ^ 63) (2 ^ 64)). lia.
Qed.

Lemma to_int64_small (x : Z) : is_int64 x -> to_int64 x = x.
Proof.
  unfold is_int64, to_int64. intros H. rewrite Z.mod_small; lia.
Qed.

Lemma to_int64_add_l (x y : Z) : to_int64 (to_int64 x + y) = to_int64 (x + y).
Proof.
  unfold to_int64.
  replace ((x + 2 ^ 63) mod 2 ^ 64 - 2 ^ 63 + y + 2 ^ 63)
    with ((x + 2 ^ 63) mod 2 ^ 64 + y) by lia.
  rewrite Zplus_mod_idemp_l. f_equal. f_equal. lia.
Qed.

(** The four bytes that [PutUint32] stores for a number given by its
    base-256 digits are those digits. *)
Lemma split_digits (b0 b1 b2 b3 : Z) :
  is_uint8 b0 -> is_uint8 b1 -> is_uint8 b2 -> is_uint8 b3 ->
  BigEndian.split (((b0 * 256 + b1) * 256 + b2) * 256 + b3) = [b0; b1; b2; b3].
Proof.
  unfold is_uint8, BigEndian.split, to_uint8. change (2 ^ 8) with 256.
  intros H0 H1 H2 H3.
  rewrite !Z.shiftr_div_pow2 by lia.
  change (2 ^ 24) with 16777216. change (2 ^ 16) with 65536.
  change (2 ^ 8) with 256.
  repeat f_equal; Z.div_mod_to_equations; lia.
Qed.

Lemma digits_range (b0 b1 b2 b3 : Z) :
  is_uint8 b0 -> is_uint8 b1 -> is_uint8 b2 -> is_uint8 b3 ->
  is_uint32 (((b0 * 256 + b1) * 256 + b2) * 256 + b3).
Proof. unfold is_uint8, is_uint32. lia. Qed.

(** [Uint32] computes the number its four bytes denote. *)
Lemma combine_digits (b0 b1 b2 b3 : Z) :
  is_uint8 b0 -> is_uint8 b1 -> is_uint8 b2 -> is_uint8 b3 ->
  BigEndian.combine b0 b1 b2 b3 = ((b0 * 256 + b1) * 256 + b2) * 256 + b3.
Proof.
  intros H0 H1 H2 H3.
  pose proof (split_digits b0 b1 b2 b3 H0 H1 H2 H3) as Hs.
  pose proof (Uint32_PutUint32 _ (digits_range b0 b1 b2 b3 H0 H1 H2 H3)) as Hc.
  unfold BigEndian.split in Hs. injection Hs as E0 E1 E2 E3.
  rewrite E0, E1, E2, E3 in Hc. exact Hc.
Qed.

Lemma split_combine (b0 b1 b2 b3 : Z) :
  is_uint8 b0 -> is_uint8 b1 -> is_uint8 b2 -> is_uint8 b3 ->
  BigEndian.split (BigEndian.combine b0 b1 b2 b3) = [b0; b1; b2; b3].
Proof.
  intros H0 H1 H2 H3. rewrite combine_digits by assumption.
  apply split_digits; assumption.
Qed.

Lemma big_endian_value_4 (b0 b1 b2 b3 : Z) :
  big_endian_value [b0; b1; b2; b3] = ((b0 * 256 + b1) * 256 + b2) * 256 + b3.
Proof. unfold big_endian_value. cbn [foldl]. lia. Qed.

Lemma big_endian_value_1 (b0 : Z) : big_endian_value [b0] = b0.
Proof. unfold big_endian_value. cbn [foldl]. lia. Qed.

Lemma little_endian_length (n : nat) (v : Z) : length (little_endian n v) = n.
Proof. revert v. induction n as [| n IH]; intros v; cbn; [| rewrite IH]; reflexivity. Qed.

Lemma little_endian_sum (n : nat) (v : Z) :
  foldr (fun b acc => to_uint8 b + 2 ^ 8 * acc) 0 (little_endian n v)
  = v mod 256 ^ Z.of_nat n.
Proof.
  revert v. induction n as [| n IH]; intros v.
  - cbn. rewrite Z.mod_1_r. reflexivity.
  - cbn [little_endian foldr]. rewrite IH.
    rewrite Nat2Z.inj_succ, Z.pow_succ_r by lia.
    rewrite Z.rem_mul_r by lia.
    unfold to_uint8. change (2 ^ 8) with 256.
    rewrite Z.mod_mod by lia. reflexivity.
Qed.

(** A 64-bit integer stored least significant byte first is read back by
    the native load of linux/amd64. *)
Lemma native_int64_little_endian (v : Z) :
  is_int64 v -> native_int64 (little_endian 8 v) = v.
Proof.
  intros H. unfold native_int64. rewrite little_endian_sum.
  change (256 ^ Z.of_nat 8) with (2 ^ 64).
  unfold to_int64, is_int64 in *.
  rewrite Zplus_mod_idemp_l. rewrite Z.mod_small; lia.
Qed.

(** ** The codec, further *)

Ltac split_Forall :=
  repeat match goal with
         | HF : Forall _ (_ :: _) |- _ =>
             apply Forall_cons in HF; destruct HF as [? HF]
         end.

(** What [decoder.value] returns on 48 given bytes, field by field. *)
Lemma BytesToPacket_fields (b : list Z) :
  (NTPPacketSizeBytes <= length b)%nat ->
  Forall is_uint8 b ->
  BytesToPacket b = Returns (Some (Packet_of_wire b), None) /\
  Bytes (Packet_of_wire b) = Returns (take NTPPacketSizeBytes b, None).
Proof.
  intros H HF. rewrite BytesToPacket_enough by exact H.
  rewrite Bytes_stored.
  explode_list b H. split_Forall.
  unfold Packet_of_wire, window.
  cbn [take drop firstn skipn NTPPacketSizeBytes
       Settings Stratum Poll Precision RootDelay RootDispersion ReferenceID
       RefTimeSec RefTimeFrac OrigTimeSec OrigTimeFrac RxTimeSec RxTimeFrac
       TxTimeSec TxTimeFrac].
  rewrite !big_endian_value_1, !big_endian_value_4.
  rewrite <- !combine_digits by assumption.
  split.
  - reflexivity.
  - rewrite !split_combine by assumption.
    rewrite !to_uint8_to_int8 by assumption.
    reflexivity.
Qed.

(** X1. Decoding reads each field from its fixed window of the input, as a
    big-endian number: for an input of at least 48 bytes the packet
    returned is the one whose Settings is byte 0, Stratum byte 1, Poll and
    Precision bytes 2 and 3 read as two's complement, and whose eleven
    32-bit fields are the numbers denoted by bytes 4-7, 8-11, ..., 44-47. *)
Theorem BytesToPacket_Packet_of_wire (b : list Z) :
  (NTPPacketSizeBytes <= length b)%nat ->
  Forall is_uint8 b ->
  BytesToPacket b = Returns (Some (Packet_of_wire b), None).
Proof. intros H HF. apply (BytesToPacket_fields b H HF). Qed.

Lemma BytesToPacket_Packet_of_wire_witness :
  (NTPPacketSizeBytes <= length (wire_format sample_request))%nat /\
  Forall is_uint8 (wire_format sample_request) /\
  BytesToPacket (wire_format sample_request)
    = Returns (Some (Packet_of_wire (wire_format sample_request)), None).
Proof.
  assert (H : (NTPPacketSizeBytes <= length (wire_format sample_request))%nat)
    by (vm_compute; lia).
  assert (HF : Forall is_uint8 (wire_format sample_request)).
  { vm_compute. repeat constructor; discriminate. }
  split; [exact H | split; [exact HF |]].
  apply (BytesToPacket_Packet_of_wire (wire_format sample_request) H HF).
Defined.

(** X2. Encoding undoes decoding: when [BytesToPacket] is given at least 48
    bytes, [Bytes] of the packet it returns is the first 48 bytes of that
    input. With C2 this makes the codec a bijection between well-typed
    packets and 48-byte sequences. *)
Theorem Bytes_BytesToPacket (b : list Z) :
  (NTPPacketSizeBytes <= length b)%nat ->
  Forall is_uint8 b ->
  exists p, BytesToPacket b = Returns (Some p, None) /\
            Bytes p = Returns (take NTPPacketSizeBytes b, None).
Proof.
  intros H HF. exists (Packet_of_wire b). apply (BytesToPacket_fields b H HF).
Qed.

Lemma Bytes_BytesToPacket_witness :
  (NTPPacketSizeBytes <= length (replicate 50 0xA5))%nat /\
  Forall is_uint8 (replicate 50 0xA5) /\
  exists p, BytesToPacket (replicate 50 0xA5) = Returns (Some p, None) /\
            Bytes p = Returns (take NTPPacketSizeBytes (replicate 50 0xA5), None).
Proof.
  assert (H : (NTPPacketSizeBytes <= length (replicate 50 0xA5))%nat)
    by (vm_compute; lia).
  assert (HF : Forall is_uint8 (replicate 50 0xA5)).
  { apply Forall_replicate. unfold is_uint8. lia. }
  split; [exact H | split; [exact HF |]].
  apply (Bytes_BytesToPacket (replicate 50 0xA5) H HF).
Defined.

(** X3. Two well-typed packets with the same encoding are the same packet:
    no two requests share a wire image. *)
Theorem Bytes_injective (p q : Packet) :
  Packet_typed p -> Packet_typed q -> Bytes p = Bytes q -> p = q.
Proof.
  intros Hp Hq Heq.
  assert (exists bs, Bytes p = Returns (bs, None)) as [bs Ep]
    by (eexists; apply Bytes_stored).
  pose proof (decoder_value_Bytes p bs Hp Ep) as Dp.
  rewrite Heq in Ep.
  pose proof (decoder_value_Bytes q bs Hq Ep) as Dq.
  rewrite Dp in Dq. injection Dq as ->. reflexivity.
Qed.

Lemma Bytes_injective_witness :
  Packet_typed sample_request /\ Packet_typed sample_request /\
  Bytes sample_request = Bytes sample_request /\
  sample_request = sample_request.
Proof.
  assert (H : Packet_typed sample_request)
    by (constructor; unfold is_uint8, is_int8, is_uint32; cbn; lia).
  split; [exact H | split; [exact H | split; [reflexivity |]]].
  apply (Bytes_injective sample_request sample_request H H). reflexivity.
Defined.

(** X4. The error of [BytesToPacket] is decided by the length of its input
    alone: nil from 48 bytes on, [io.EOF] for the empty input, and
    [io.ErrUnexpectedEOF] for 1 to 47 bytes. *)
Theorem BytesToPacket_error_by_length (b : list Z) :
  exists pkt err,
    BytesToPacket b = Returns (pkt, err) /\
    (err = None <-> (NTPPacketSizeBytes <= length b)%nat) /\
    (err = Some EOF <-> length b = 0%nat) /\
    (err = Some ErrUnexpectedEOF <-> (0 < length b < NTPPacketSizeBytes)%nat).
Proof.
  destruct (Nat.le_gt_cases NTPPacketSizeBytes (length b)) as [H | H].
  - assert (Hlen : length (take NTPPacketSizeBytes b) = NTPPacketSizeBytes)
      by (rewrite length_take; lia).
    destruct (decoder_value_enough _ Hlen) as (p & Hp & _).
    rewrite BytesToPacket_enough, Hp by exact H.
    exists (Some p), None. unfold NTPPacketSizeBytes in *.
    repeat split; intros; first [reflexivity | discriminate | lia].
  - rewrite BytesToPacket_short by exact H.
    do 2 eexists. split; [reflexivity |]. unfold NTPPacketSizeBytes in *.
    destruct (decide (length b = 0)%nat);
      repeat split; intros; first [reflexivity | discriminate | lia].
Qed.

(** ** The settings byte, further *)

Lemma accepted_settings_table :
  forallb (fun b => eqb (ValidSettingsFormat (with_settings b))
                        (existsb (Z.eqb b) accepted_settings))
          all_bytes = true.
Proof. vm_compute. reflexivity. Qed.

(** X5. Exactly eight settings bytes pass [ValidSettingsFormat]: 0x0B, 0x13,
    0x1B and 0x23 (no leap warning, versions 1 to 4) and 0xCB, 0xD3, 0xDB
    and 0xE3 (alarm condition, versions 1 to 4). *)
Theorem ValidSettingsFormat_accepted_settings (p : Packet) :
  is_uint8 (Settings p) ->
  (ValidSettingsFormat p = true <-> In (Settings p) accepted_settings).
Proof.
  intros Hb. rewrite ValidSettingsFormat_only_Settings.
  pose proof accepted_settings_table as Htab.
  rewrite forallb_forall in Htab.
  specialize (Htab _ (all_bytes_complete _ Hb)).
  apply eqb_prop in Htab. rewrite Htab.
  rewrite existsb_exists. split.
  - intros (x & Hin & Heq). apply Z.eqb_eq in Heq. subst x. exact Hin.
  - intros Hin. exists (Settings p). split; [exact Hin | apply Z.eqb_refl].
Qed.

Lemma ValidSettingsFormat_accepted_settings_witness :
  is_uint8 (Settings sample_request) /\
  (ValidSettingsFormat sample_request = true <->
   In (Settings sample_request) accepted_settings).
Proof.
  assert (H : is_uint8 (Settings sample_request)) by (unfold is_uint8; cbn; lia).
  split; [exact H | apply (ValidSettingsFormat_accepted_settings sample_request H)].
Defined.

(** ** [time.Unix] *)

Lemma to_int64_sub_1 (x u : Z) :
  to_int64 (to_int64 (to_int64 x - 1) + u) = to_int64 (x - 1 + u).
Proof.
  rewrite to_int64_add_l.
  replace (to_int64 x - 1 + u) with (to_int64 x + (- 1 + u)) by lia.
  rewrite to_int64_add_l. f_equal. lia.
Qed.

Lemma nanoseconds_fit (r : Z) :
  0 <= r < 1000000000 -> to_uint64 (to_int32 r) = r.
Proof.
  intros H. unfold to_uint64, to_int32.
  rewrite (Z.mod_small (r + 2 ^ 31)) by lia.
  rewrite Z.mod_small; lia.
Qed.

Lemma time_Unix_normal (sec nsec : Z) :
  is_int64 sec -> is_int64 nsec ->
  time_Unix sec nsec =
    mkTime (nsec mod 10 ^ 9)
           (to_int64 (sec + nsec / 10 ^ 9 + unixToInternal))
           (Some Local).
Proof.
  intros Hs Hn.
  unfold time_Unix, unixTime. change (10 ^ 9) with 1000000000.
  unfold is_int64 in Hs, Hn.
  destruct ((nsec <? 0) || (nsec >=? 1000000000)) eqn:Hout.
  - pose proof (Z.quot_rem' nsec 1000000000) as Hqr.
    assert (Hsign : (0 <= nsec -> 0 <= Z.rem nsec 1000000000 < 1000000000) /\
                    (nsec <= 0 -> - 1000000000 < Z.rem nsec 1000000000 <= 0)).
    { split; intros;
        [pose proof (Z.rem_bound_pos_pos nsec 1000000000)
        | pose proof (Z.rem_bound_pos_neg nsec 1000000000)]; lia. }
    set (n := Z.quot nsec 1000000000) in *.
    set (r := Z.rem nsec 1000000000) in *.
    rewrite (to_int64_small (n * 1000000000)) by (unfold is_int64; lia).
    replace (nsec - n * 1000000000) with r by lia.
    rewrite (to_int64_small r) by (unfold is_int64; lia).
    destruct (r <? 0) eqn:Hneg.
    + apply Z.ltb_lt in Hneg.
      rewrite (to_int64_small (r + 1000000000)) by (unfold is_int64; lia).
      rewrite nanoseconds_fit by lia.
      rewrite to_int64_sub_1.
      rewrite <- (Z.div_unique nsec 1000000000 (n - 1) (r + 1000000000)) by lia.
      rewrite <- (Z.mod_unique nsec 1000000000 (n - 1) (r + 1000000000)) by lia.
      f_equal. f_equal. lia.
    + apply Z.ltb_ge in Hneg.
      rewrite nanoseconds_fit by lia.
      rewrite to_int64_add_l.
      rewrite <- (Z.div_unique nsec 1000000000 n r) by lia.
      rewrite <- (Z.mod_unique nsec 1000000000 n r) by lia.
      reflexivity.
  - apply orb_false_iff in Hout. destruct Hout as [H1 H2].
    apply Z.ltb_ge in H1. rewrite Z.geb_leb in H2. apply Z.leb_gt in H2.
    rewrite nanoseconds_fit by lia.
    rewrite Z.div_small, Z.mod_small by lia.
    f_equal. f_equal. lia.
Qed.

(** X6. [time.Unix] normalises its arguments by floor division: for any
    two 64-bit arguments the nanoseconds of the result are [nsec mod 1e9],
    between 0 and 999999999, and the whole seconds of [nsec] are carried
    into the seconds, which wrap at 64 bits; the location is [Local]. *)
Theorem time_Unix_floor (sec nsec : Z) :
  is_int64 sec -> is_int64 nsec ->
  time_Unix sec nsec =
    mkTime (nsec mod 10 ^ 9)
           (to_int64 (sec + nsec / 10 ^ 9 + unixToInternal))
           (Some Local) /\
  0 <= wall (time_Unix sec nsec) < 10 ^ 9.
Proof.
  intros Hs Hn.
  pose proof (time_Unix_normal sec nsec Hs Hn) as Heq.
  split; [exact Heq |].
  rewrite Heq. cbn [wall]. apply Z.mod_pos_bound. lia.
Qed.

Lemma time_Unix_floor_witness :
  is_int64 5 /\ is_int64 (- 1) /\
  time_Unix 5 (- 1) =
    mkTime (- 1 mod 10 ^ 9) (to_int64 (5 + - 1 / 10 ^ 9 + unixToInternal))
           (Some Local) /\
  0 <= wall (time_Unix 5 (- 1)) < 10 ^ 9.
Proof.
  assert (H5 : is_int64 5) by (unfold is_int64; lia).
  assert (H1 : is_int64 (- 1)) by (unfold is_int64; lia).
  split; [exact H5 | split; [exact H1 |]].
  apply (time_Unix_floor 5 (- 1) H5 H1).
Defined.

(** ** Control-message framing *)

(** X7. As long as the sums stay within [int], [cmsgAlignOf] rounds a
    length up to the next multiple of the pointer size, 8: for a length
    from 0 to [2^63 - 24] the result is a multiple of 8, at least the length
    and less than the length plus 8, and [CmsgSpace] of it is at least 16
    more than the length. The room for one header and one [Timespec] is
    exactly the 32 bytes of [ControlHeaderSizeBytes]. Above that range the
    sums wrap: [cmsgAlignOf] of the largest [int] is the smallest one. *)
Theorem cmsgAlignOf_rounds_up (salen : Z) :
  0 <= salen <= 2 ^ 63 - 24 ->
  cmsgAlignOf salen = 8 * ((salen + 7) / 8) /\
  salen <= cmsgAlignOf salen < salen + 8 /\
  16 + salen <= CmsgSpace salen < 16 + salen + 8 /\
  CmsgSpace (Z.of_nat SizeofTimespec) = Z.of_nat ControlHeaderSizeBytes /\
  cmsgAlignOf (2 ^ 63 - 1) = - 2 ^ 63.
Proof.
  intros H.
  assert (Halign : cmsgAlignOf salen = 8 * ((salen + 7) / 8)).
  { unfold cmsgAlignOf, SizeofPtr.
    replace (to_int64 (salen + 8) - 1) with (to_int64 (salen + 8) + - 1) by lia.
    rewrite to_int64_add_l.
    rewrite (to_int64_small (salen + 8 + - 1)) by (unfold is_int64; lia).
    change (to_int64 (8 - 1)) with (Z.ones 3).
    rewrite <- Z.ldiff_land, Z.ldiff_ones_r by lia.
    rewrite Z.shiftl_mul_pow2, Z.shiftr_div_pow2 by lia.
    change (2 ^ 3) with 8. replace (salen + 8 + - 1) with (salen + 7) by lia.
    lia. }
  assert (Hb : salen <= 8 * ((salen + 7) / 8) < salen + 8)
    by (Z.div_mod_to_equations; lia).
  split; [exact Halign |].
  split; [rewrite Halign; exact Hb |].
  split; [| split; reflexivity].
  unfold CmsgSpace. rewrite Halign.
  change (cmsgAlignOf SizeofCmsghdr) with 16.
  rewrite to_int64_small by (unfold is_int64; lia).
  lia.
Qed.

Lemma cmsgAlignOf_rounds_up_witness :
  0 <= 13 <= 2 ^ 63 - 24 /\ cmsgAlignOf 13 = 16 /\ CmsgSpace 13 = 32.
Proof.
  assert (H : 0 <= 13 <= 2 ^ 63 - 24) by lia.
  destruct (cmsgAlignOf_rounds_up 13 H) as (Ha & _).
  split; [exact H | split; [rewrite Ha |]; reflexivity].
Defined.

(** ** The receive functions, further *)

Lemma ValidSettingsFormat_accepted (b : Z) :
  is_uint8 b ->
  (ValidSettingsFormat (with_settings b) = true <-> settings_accepted b).
Proof.
  intros Hb. rewrite <- settings_acceptedb_spec.
  pose proof ValidSettingsFormat_table as Htab.
  rewrite forallb_forall in Htab.
  specialize (Htab _ (all_bytes_complete _ Hb)).
  apply eqb_prop in Htab. rewrite Htab. reflexivity.
Qed.

Lemma BytesToPacket_wire_format (p : Packet) (rest : list Z) :
  Packet_typed p ->
  BytesToPacket (take NTPPacketSizeBytes (wire_format p ++ rest) ++
                 replicate (NTPPacketSizeBytes - length (wire_format p ++ rest)) 0)
  = Returns (Some p, None).
Proof.
  intros Hp.
  assert (Hw : Bytes p = Returns (wire_format p, None)).
  { rewrite Bytes_stored. unfold wire_format.
    rewrite !big_endian_1, <- !PutUint32_big_endian.
    rewrite (to_uint8_small (Settings p)) by apply Hp.
    rewrite (to_uint8_small (Stratum p)) by apply Hp.
    reflexivity. }
  assert (Hlen : length (wire_format p) = NTPPacketSizeBytes) by reflexivity.
  rewrite take_app_length' by (symmetry; exact Hlen).
  rewrite length_app, Hlen.
  replace (NTPPacketSizeBytes - (NTPPacketSizeBytes + length rest))%nat
    with 0%nat by lia.
  cbn [replicate]. rewrite app_nil_r.
  rewrite BytesToPacket_enough by lia.
  rewrite take_ge by lia.
  rewrite (decoder_value_Bytes p _ Hp Hw). reflexivity.
Qed.

Lemma BytesToPacket_at_most_one_byte (data : list Z) :
  (length data <= 1)%nat ->
  BytesToPacket (take NTPPacketSizeBytes data ++
                 replicate (NTPPacketSizeBytes - length data) 0)
  = Returns (Some (with_settings (first_byte data)), None).
Proof.
  intros H. destruct data as [| b [| ? ?]]; [reflexivity | | cbn in H; lia].
  rewrite BytesToPacket_enough by (cbn; unfold NTPPacketSizeBytes; lia).
  reflexivity.
Qed.

Lemma first_byte_padded (data : list Z) (n : nat) :
  (0 < n)%nat ->
  first_byte (take n data ++ replicate (n - length data) 0) = first_byte data.
Proof.
  intros H. destruct n as [| n]; [lia |].
  destruct data; reflexivity.
Qed.

Lemma Settings_Packet_of_wire (b : list Z) :
  Settings (Packet_of_wire b) = first_byte b.
Proof. destruct b; reflexivity. Qed.

Section ReceiveFurther.

Variable UDPConn : Type.
Variable connFd : UDPConn -> Z * option error.
Variable sockaddrToUDP : option Sockaddr -> option UDPAddr.
Variable udp_arrival : UDPConn -> error + (list Z * UDPAddr).
Variable fd_arrival : Z -> error + Datagram.

Local Abbreviation ReadNTPPacket' := (ReadNTPPacket UDPConn udp_arrival).
Local Abbreviation ReadPacketWithKernelTimestamp' :=
  (ReadPacketWithKernelTimestamp UDPConn connFd sockaddrToUDP fd_arrival).

Lemma ReadNTPPacket_data (conn : UDPConn) (data : list Z) (addr : UDPAddr) :
  udp_arrival conn = inr (data, addr) ->
  ReadNTPPacket' conn =
    run_bind (BytesToPacket (take NTPPacketSizeBytes data ++
                             replicate (NTPPacketSizeBytes - length data) 0))
             (fun '(ntp, err) => Returns (ntp, Some addr, err)).
Proof.
  intros H. unfold ReadNTPPacket, ReadFromUDP. rewrite H, copy_make. reflexivity.
Qed.

Lemma ReadPacketWithKernelTimestamp_data (conn : UDPConn) (fd : Z) (d : Datagram) :
  connFd conn = (fd, None) ->
  fd_arrival fd = inr d ->
  ReadPacketWithKernelTimestamp' conn =
    run_bind (BytesToPacket (take NTPPacketSizeBytes (payload d) ++
                             replicate (NTPPacketSizeBytes - length (payload d)) 0))
             (fun '(packet, err) =>
                Returns (packet,
                         time_Unix
                           (to_int64 (native_int64 (take 8 (timestamp_window (control d)))))
                           (to_int64 (native_int64
                                        (take 8 (drop 8 (timestamp_window (control d)))))),
                         sockaddrToUDP (Some (sender d)), err)).
Proof.
  intros Hfd Harr. unfold ReadPacketWithKernelTimestamp. rewrite Hfd.
  unfold Recvmsg. rewrite Harr, !copy_make.
  rewrite Timespec_at_header by apply copy_make_length.
  unfold timestamp_window. rewrite drop_drop. reflexivity.
Qed.

(** C7, as the code has it. Of the four steps of
    [ReadPacketWithKernelTimestamp] only two can fail: obtaining the
    descriptor and the receive. When either fails the call returns that
    error together with a nil packet, the zero time and a nil address.
    The other two steps have no failure: the timestamp record is read from
    the 32-byte control buffer whatever was received into it, and the
    48-byte payload buffer always decodes. So whenever the descriptor is
    obtained and the receive delivers a datagram the call returns a nil
    error with a packet, a time and the converted sender, also when no
    timestamp was delivered. *)
Theorem ReadPacketWithKernelTimestamp_two_steps_fail (conn : UDPConn) :
  (forall c : list Z, exists ts,
     Timespec_at (copy (make ControlHeaderSizeBytes) c).1 (CmsgSpace 0) = Returns ts) /\
  (forall pl : list Z, exists p,
     BytesToPacket (copy (make NTPPacketSizeBytes) pl).1 = Returns (Some p, None)) /\
  let fd := (connFd conn).1 in
  ((exists e,
      ReadPacketWithKernelTimestamp UDPConn connFd sockaddrToUDP fd_arrival conn
        = Returns (None, Time_zero, None, Some e) /\
      ((connFd conn).2 = Some e \/
       ((connFd conn).2 = None /\ fd_arrival fd = inl e)))
   \/
   (exists d p,
      (connFd conn).2 = None /\
      fd_arrival fd = inr d /\
      ReadPacketWithKernelTimestamp UDPConn connFd sockaddrToUDP fd_arrival conn
        = Returns (Some p,
                   time_Unix
                     (to_int64 (native_int64 (take 8 (timestamp_window (control d)))))
                     (to_int64 (native_int64
                                  (take 8 (drop 8 (timestamp_window (control d)))))),
                   sockaddrToUDP (Some (sender d)), None))).
Proof.
  split; [| split].
  - intros c. rewrite copy_make. cbn [fst].
    rewrite Timespec_at_header by apply copy_make_length.
    eexists. reflexivity.
  - intros pl. rewrite copy_make. cbn [fst].
    destruct (BytesToPacket_exact _ (copy_make_length NTPPacketSizeBytes pl))
      as (p & Hp & _).
    exists p. exact Hp.
  - destruct (connFd conn) as [fd [e |]] eqn:Hfd; cbn [fst snd].
    { left. exists e. unfold ReadPacketWithKernelTimestamp. rewrite Hfd.
      split; [reflexivity | left; reflexivity]. }
    destruct (fd_arrival fd) as [e | d] eqn:Harr.
    { left. exists e. unfold ReadPacketWithKernelTimestamp, Recvmsg.
      rewrite Hfd, Harr. split; [reflexivity | right; split; reflexivity]. }
    right.
    destruct (BytesToPacket_exact _
                (copy_make_length NTPPacketSizeBytes (payload d)))
      as (p & Hp & _).
    exists d, p. split; [reflexivity | split; [reflexivity |]].
    rewrite (ReadPacketWithKernelTimestamp_data conn fd d Hfd Harr), Hp.
    reflexivity.
Qed.

(** X8. [ReadNTPPacket] fails exactly when its one receive fails: it then
    returns that error with a nil packet and a nil address. When the receive
    delivers a datagram, of any length, it returns a packet, the sender and
    a nil error. *)
Theorem ReadNTPPacket_all_or_nothing (conn : UDPConn) :
  (exists e, udp_arrival conn = inl e /\
             ReadNTPPacket UDPConn udp_arrival conn = Returns (None, None, Some e))
  \/
  (exists data addr p,
     udp_arrival conn = inr (data, addr) /\
     ReadNTPPacket UDPConn udp_arrival conn = Returns (Some p, Some addr, None)).
Proof.
  destruct (udp_arrival conn) as [e | [data addr]] eqn:Harr.
  - left. exists e. split; [reflexivity |].
    unfold ReadNTPPacket, ReadFromUDP. rewrite Harr. reflexivity.
  - right. exists data, addr.
    destruct (BytesToPacket_exact _ (copy_make_length NTPPacketSizeBytes data))
      as (p & Hp & _).
    exists p. split; [reflexivity |].
    rewrite (ReadNTPPacket_data conn data addr Harr), Hp. reflexivity.
Qed.

(** X9. The Settings of the packet that [ReadNTPPacket] returns is the
    first byte of the datagram, 0 for an empty datagram; so the packet
    passes [ValidSettingsFormat] exactly when that byte has leap indicator
    0 or 3, version 1 to 4 and mode 3, whatever the rest of the datagram. *)
Theorem ReadNTPPacket_first_byte (conn : UDPConn) (data : list Z) (addr : UDPAddr) :
  udp_arrival conn = inr (data, addr) ->
  Forall is_uint8 data ->
  exists p,
    ReadNTPPacket' conn = Returns (Some p, Some addr, None) /\
    Settings p = first_byte data /\
    (ValidSettingsFormat p = true <-> settings_accepted (first_byte data)).
Proof.
  intros Harr HF.
  set (b := take NTPPacketSizeBytes data ++
            replicate (NTPPacketSizeBytes - length data) 0).
  assert (Hlen : length b = NTPPacketSizeBytes) by apply copy_make_length.
  assert (HFb : Forall is_uint8 b).
  { apply Forall_app. split; [apply Forall_take, HF |].
    apply Forall_replicate. unfold is_uint8. lia. }
  destruct (BytesToPacket_fields b ltac:(lia) HFb) as [Hdec _].
  exists (Packet_of_wire b).
  assert (Hset : Settings (Packet_of_wire b) = first_byte data).
  { rewrite Settings_Packet_of_wire. subst b.
    apply first_byte_padded. unfold NTPPacketSizeBytes. lia. }
  split; [| split; [exact Hset |]].
  - rewrite (ReadNTPPacket_data conn data addr Harr). fold b.
    rewrite Hdec. reflexivity.
  - rewrite ValidSettingsFormat_only_Settings, Hset.
    apply ValidSettingsFormat_accepted.
    destruct data as [| x data]; [unfold is_uint8; cbn; lia |].
    apply Forall_cons in HF. apply HF.
Qed.

(** X10. A datagram of at most one byte is decoded like a full one:
    [ReadNTPPacket] returns no error and the packet whose Settings is that
    byte (0 for the empty datagram) and whose other fields are all zero. A
    one-byte datagram 0x1B therefore yields a packet that passes
    [ValidSettingsFormat]. *)
Theorem ReadNTPPacket_at_most_one_byte (conn : UDPConn) (data : list Z) (addr : UDPAddr) :
  udp_arrival conn = inr (data, addr) ->
  (length data <= 1)%nat ->
  ReadNTPPacket' conn =
    Returns (Some (with_settings (first_byte data)), Some addr, None) /\
  (data = [0x1B] -> ValidSettingsFormat (with_settings (first_byte data)) = true).
Proof.
  intros Harr Hlen. split.
  - rewrite (ReadNTPPacket_data conn data addr Harr).
    rewrite BytesToPacket_at_most_one_byte by exact Hlen. reflexivity.
  - intros ->. reflexivity.
Qed.

(** X11. Receiving what [Bytes] produced gives the packet back: when the
    datagram is the encoding of a well-typed packet, possibly followed by
    further bytes, [ReadNTPPacket] returns that packet, the sender and a
    nil error. *)
Theorem ReadNTPPacket_wire_format (conn : UDPConn) (p : Packet) (rest : list Z)
    (addr : UDPAddr) :
  Packet_typed p ->
  udp_arrival conn = inr (wire_format p ++ rest, addr) ->
  ReadNTPPacket' conn = Returns (Some p, Some addr, None).
Proof.
  intros Hp Harr.
  rewrite (ReadNTPPacket_data conn _ addr Harr).
  rewrite BytesToPacket_wire_format by exact Hp. reflexivity.
Qed.

(** X12. The same for the timestamped receiver: when the descriptor is
    obtained and the payload received is the encoding of a well-typed
    packet, possibly followed by further bytes, the call returns that
    packet, the converted sender and a nil error, whatever the control
    bytes. *)
Theorem ReadPacketWithKernelTimestamp_wire_format (conn : UDPConn) (fd : Z)
    (d : Datagram) (p : Packet) (rest : list Z) :
  Packet_typed p ->
  connFd conn = (fd, None) ->
  fd_arrival fd = inr d ->
  payload d = wire_format p ++ rest ->
  exists hwRxTime,
    ReadPacketWithKernelTimestamp' conn =
      Returns (Some p, hwRxTime, sockaddrToUDP (Some (sender d)), None).
Proof.
  intros Hp Hfd Harr Hpay.
  rewrite (ReadPacketWithKernelTimestamp_data conn fd d Hfd Harr), Hpay.
  rewrite BytesToPacket_wire_format by exact Hp.
  eexists. reflexivity.
Qed.

(** X13. When the control bytes received are a sixteen-byte header followed
    by seconds and nanoseconds as two 64-bit little-endian integers, the
    time returned is [time.Unix(sec, nsec)]. The header may hold anything:
    its level, type and length are not looked at. *)
Theorem ReadPacketWithKernelTimestamp_timestamp (conn : UDPConn) (fd : Z)
    (d : Datagram) (hdr rest : list Z) (sec nsec : Z) :
  connFd conn = (fd, None) ->
  fd_arrival fd = inr d ->
  length hdr = 16%nat ->
  is_int64 sec -> is_int64 nsec ->
  control d = hdr ++ little_endian 8 sec ++ little_endian 8 nsec ++ rest ->
  exists p,
    ReadPacketWithKernelTimestamp' conn =
      Returns (Some p, time_Unix sec nsec, sockaddrToUDP (Some (sender d)), None).
Proof.
  intros Hfd Harr Hhdr Hsec Hnsec Hctl.
  rewrite (ReadPacketWithKernelTimestamp_data conn fd d Hfd Harr).
  destruct (BytesToPacket_exact _ (copy_make_length NTPPacketSizeBytes (payload d)))
    as (p & Hp & _).
  exists p. rewrite Hp. cbn [run_bind].
  assert (Hwin : take 16 (timestamp_window (control d))
                 = little_endian 8 sec ++ little_endian 8 nsec).
  { unfold timestamp_window, ControlHeaderSizeBytes. rewrite Hctl.
    assert (Ht : take 32 (hdr ++ little_endian 8 sec ++ little_endian 8 nsec ++ rest)
                 = hdr ++ little_endian 8 sec ++ little_endian 8 nsec).
    { rewrite (app_assoc (little_endian 8 sec)), (app_assoc hdr).
      apply take_app_length'.
      rewrite !length_app, !little_endian_length, Hhdr. reflexivity. }
    assert (Hr : (32 - length (hdr ++ little_endian 8 sec ++
                               little_endian 8 nsec ++ rest))%nat = 0%nat).
    { rewrite !length_app, !little_endian_length, Hhdr. lia. }
    rewrite Ht, Hr. cbn [replicate]. rewrite app_nil_r.
    rewrite drop_app_length' by (symmetry; exact Hhdr).
    apply take_ge. rewrite length_app, !little_endian_length. lia. }
  assert (H1 : take 8 (timestamp_window (control d)) = little_endian 8 sec).
  { replace (take 8 (timestamp_window (control d)))
      with (take 8 (take 16 (timestamp_window (control d))))
      by (rewrite take_take; reflexivity).
    rewrite Hwin. apply take_app_length'. rewrite little_endian_length. reflexivity. }
  assert (H2 : take 8 (drop 8 (timestamp_window (control d))) = little_endian 8 nsec).
  { rewrite take_drop_commute. change (8 + 8)%nat with 16%nat. rewrite Hwin.
    apply drop_app_length'. rewrite little_endian_length. reflexivity. }
  rewrite H1, H2, !native_int64_little_endian by assumption.
  rewrite !to_int64_small by assumption. reflexivity.
Qed.

(** X14. The result of [ReadPacketWithKernelTimestamp] does not depend on
    the first sixteen control bytes, nor on any control byte after the
    first 32: two receives that bring the same payload and sender, and
    control bytes that agree on positions 16 to 31, return the same
    result. *)
Theorem ReadPacketWithKernelTimestamp_header_ignored
    (fd_arrival2 : Z -> error + Datagram) (conn : UDPConn) (fd : Z)
    (d1 d2 : Datagram) :
  connFd conn = (fd, None) ->
  fd_arrival fd = inr d1 ->
  fd_arrival2 fd = inr d2 ->
  payload d1 = payload d2 ->
  sender d1 = sender d2 ->
  timestamp_window (control d1) = timestamp_window (control d2) ->
  ReadPacketWithKernelTimestamp' conn =
    ReadPacketWithKernelTimestamp UDPConn connFd sockaddrToUDP fd_arrival2 conn.
Proof.
  intros Hfd H1 H2 Hpay Hsender Hwin.
  assert (forall fa d, fa fd = inr d ->
            ReadPacketWithKernelTimestamp UDPConn connFd sockaddrToUDP fa conn =
            run_bind (BytesToPacket (take NTPPacketSizeBytes (payload d) ++
                        replicate (NTPPacketSizeBytes - length (payload d)) 0))
              (fun '(packet, err) =>
                 Returns (packet,
                   time_Unix
                     (to_int64 (native_int64 (take 8 (timestamp_window (control d)))))
                     (to_int64 (native_int64
                                  (take 8 (drop 8 (timestamp_window (control d)))))),
                   sockaddrToUDP (Some (sender d)), err))) as Hdata.
  { intros fa d Harr. unfold ReadPacketWithKernelTimestamp. rewrite Hfd.
    unfold Recvmsg. rewrite Harr, !copy_make.
    rewrite Timespec_at_header by apply copy_make_length.
    unfold timestamp_window. rewrite drop_drop. reflexivity. }
  rewrite (Hdata _ _ H1), (Hdata _ _ H2), Hpay, Hsender, Hwin. reflexivity.
Qed.

(** X15. The two receivers decode alike: for the same payload, when both
    succeed to receive, [ReadNTPPacket] and [ReadPacketWithKernelTimestamp]
    return the same packet. *)
Theorem receivers_agree (conn : UDPConn) (fd : Z) (d : Datagram) (addr : UDPAddr) :
  udp_arrival conn = inr (payload d, addr) ->
  connFd conn = (fd, None) ->
  fd_arrival fd = inr d ->
  exists p hwRxTime,
    ReadNTPPacket' conn = Returns (Some p, Some addr, None) /\
    ReadPacketWithKernelTimestamp' conn =
      Returns (Some p, hwRxTime, sockaddrToUDP (Some (sender d)), None).
Proof.
  intros Hudp Hfd Harr.
  destruct (BytesToPacket_exact _ (copy_make_length NTPPacketSizeBytes (payload d)))
    as (p & Hp & _).
  exists p. eexists.
  rewrite (ReadNTPPacket_data conn _ addr Hudp).
  rewrite (ReadPacketWithKernelTimestamp_data conn fd d Hfd Harr).
  rewrite Hp. split; reflexivity.
Qed.

(** X16. Whatever the control bytes hold, the time that
    [ReadPacketWithKernelTimestamp] returns is well formed: its nanoseconds
    lie between 0 and 999999999, and on success its location is [Local].
    The call itself always returns: it neither panics nor reads outside
    its buffers. *)
Theorem ReadPacketWithKernelTimestamp_time_normal (conn : UDPConn) :
  exists ntp hwRxTime remAddr err,
    ReadPacketWithKernelTimestamp UDPConn connFd sockaddrToUDP fd_arrival conn
      = Returns (ntp, hwRxTime, remAddr, err) /\
    0 <= wall hwRxTime < 10 ^ 9 /\
    (err = None -> loc hwRxTime = Some Local).
Proof.
  destruct (connFd conn) as [fd [e |]] eqn:Hfd.
  { exists None, Time_zero, None, (Some e).
    unfold ReadPacketWithKernelTimestamp. rewrite Hfd.
    split; [reflexivity | split; [cbn; lia | discriminate]]. }
  destruct (fd_arrival fd) as [e | d] eqn:Harr.
  { exists None, Time_zero, None, (Some e).
    unfold ReadPacketWithKernelTimestamp, Recvmsg. rewrite Hfd, Harr.
    split; [reflexivity | split; [cbn; lia | discriminate]]. }
  destruct (BytesToPacket_exact _ (copy_make_length NTPPacketSizeBytes (payload d)))
    as (p & Hp & _).
  rewrite (ReadPacketWithKernelTimestamp_data conn fd d Hfd Harr), Hp.
  cbn [run_bind]. do 4 eexists. split; [reflexivity |].
  rewrite time_Unix_normal by apply to_int64_range.
  cbn [wall loc]. split; [apply Z.mod_pos_bound; lia | reflexivity].
Qed.

End ReceiveFurther.

Lemma ReadNTPPacket_first_byte_witness :
  arrival_of_two_bytes 7 = inr ([0x1B; 0x02], sample_peer) /\
  Forall is_uint8 [0x1B; 0x02] /\
  exists p,
    ReadNTPPacket Z arrival_of_two_bytes 7 = Returns (Some p, Some sample_peer, None) /\
    Settings p = first_byte [0x1B; 0x02] /\
    (ValidSettingsFormat p = true <-> settings_accepted (first_byte [0x1B; 0x02])).
Proof.
  assert (HF : Forall is_uint8 [0x1B; 0x02])
    by (repeat constructor; discriminate).
  split; [reflexivity | split; [exact HF |]].
  apply (ReadNTPPacket_first_byte Z arrival_of_two_bytes 7 [0x1B; 0x02]
           sample_peer eq_refl HF).
Defined.

Lemma ReadNTPPacket_at_most_one_byte_witness :
  arrival_of_one_byte 7 = inr ([0x1B], sample_peer) /\
  (length [0x1B] <= 1)%nat /\
  ReadNTPPacket Z arrival_of_one_byte 7 =
    Returns (Some (with_settings (first_byte [0x1B])), Some sample_peer, None) /\
  ValidSettingsFormat (with_settings (first_byte [0x1B])) = true.
Proof.
  assert (Hlen : (length [0x1B] <= 1)%nat) by (cbn; lia).
  destruct (ReadNTPPacket_at_most_one_byte Z arrival_of_one_byte 7 [0x1B]
              sample_peer eq_refl Hlen) as [Hread Hvalid].
  split; [reflexivity | split; [exact Hlen | split; [exact Hread |]]].
  apply Hvalid. reflexivity.
Defined.

Lemma ReadNTPPacket_wire_format_witness :
  Packet_typed sample_request /\
  arrival_of_request 7 = inr (wire_format sample_request ++ [], sample_peer) /\
  ReadNTPPacket Z arrival_of_request 7 =
    Returns (Some sample_request, Some sample_peer, None).
Proof.
  assert (Hp : Packet_typed sample_request)
    by (constructor; unfold is_uint8, is_int8, is_uint32; cbn; lia).
  split; [exact Hp | split; [reflexivity |]].
  apply (ReadNTPPacket_wire_format Z arrival_of_request 7 sample_request []
           sample_peer Hp).
  reflexivity.
Defined.

Lemma ReadPacketWithKernelTimestamp_wire_format_witness :
  Packet_typed sample_request /\
  sample_connFd 7 = (7, None) /\
  arrival_with_timestamp 7 = inr sample_datagram /\
  payload sample_datagram = wire_format sample_request ++ [] /\
  exists hwRxTime,
    ReadPacketWithKernelTimestamp Z sample_connFd sample_sockaddrToUDP
        arrival_with_timestamp 7
      = Returns (Some sample_request, hwRxTime,
                 sample_sockaddrToUDP (Some (sender sample_datagram)), None).
Proof.
  assert (Hp : Packet_typed sample_request)
    by (constructor; unfold is_uint8, is_int8, is_uint32; cbn; lia).
  split; [exact Hp |]. do 3 (split; [reflexivity |]).
  apply (ReadPacketWithKernelTimestamp_wire_format Z sample_connFd
           sample_sockaddrToUDP arrival_with_timestamp 7 7 sample_datagram
           sample_request [] Hp); reflexivity.
Defined.

Lemma ReadPacketWithKernelTimestamp_timestamp_witness :
  sample_connFd 7 = (7, None) /\
  arrival_with_timestamp 7 = inr sample_datagram /\
  length sample_cmsghdr = 16%nat /\
  is_int64 sample_sec /\ is_int64 sample_nsec /\
  control sample_datagram =
    sample_cmsghdr ++ little_endian 8 sample_sec ++ little_endian 8 sample_nsec ++ [] /\
  exists p,
    ReadPacketWithKernelTimestamp Z sample_connFd sample_sockaddrToUDP
        arrival_with_timestamp 7
      = Returns (Some p, time_Unix sample_sec sample_nsec,
                 sample_sockaddrToUDP (Some (sender sample_datagram)), None).
Proof.
  assert (Hs : is_int64 sample_sec) by (unfold is_int64, sample_sec; lia).
  assert (Hn : is_int64 sample_nsec) by (unfold is_int64, sample_nsec; lia).
  do 3 (split; [reflexivity |]).
  split; [exact Hs | split; [exact Hn | split; [reflexivity |]]].
  apply (ReadPacketWithKernelTimestamp_timestamp Z sample_connFd
           sample_sockaddrToUDP arrival_with_timestamp 7 7 sample_datagram
           sample_cmsghdr [] sample_sec sample_nsec eq_refl eq_refl eq_refl Hs Hn).
  reflexivity.
Defined.

Lemma ReadPacketWithKernelTimestamp_header_ignored_witness :
  sample_connFd 7 = (7, None) /\
  arrival_with_timestamp 7 = inr sample_datagram /\
  control sample_datagram <>
    replicate 16 0xFF ++ little_endian 8 sample_sec ++ little_endian 8 sample_nsec /\
  ReadPacketWithKernelTimestamp Z sample_connFd sample_sockaddrToUDP
      arrival_with_timestamp 7
  = ReadPacketWithKernelTimestamp Z sample_connFd sample_sockaddrToUDP
      arrival_with_other_header 7.
Proof.
  do 2 (split; [reflexivity |]).
  split; [discriminate |].
  apply (ReadPacketWithKernelTimestamp_header_ignored Z sample_connFd
           sample_sockaddrToUDP arrival_with_timestamp arrival_with_other_header
           7 7 sample_datagram
           (mkDatagram (wire_format sample_request)
                       (replicate 16 0xFF ++ little_endian 8 sample_sec ++
                        little_endian 8 sample_nsec)
                       sample_sender));
    reflexivity.
Defined.

Lemma receivers_agree_witness :
  arrival_of_request 7 = inr (payload sample_datagram, sample_peer) /\
  sample_connFd 7 = (7, None) /\
  arrival_with_timestamp 7 = inr sample_datagram /\
  exists p hwRxTime,
    ReadNTPPacket Z arrival_of_request 7 = Returns (Some p, Some sample_peer, None) /\
    ReadPacketWithKernelTimestamp Z sample_connFd sample_sockaddrToUDP
        arrival_with_timestamp 7
      = Returns (Some p, hwRxTime,
                 sample_sockaddrToUDP (Some (sender sample_datagram)), None).
Proof.
  do 3 (split; [reflexivity |]).
  apply (receivers_agree Z sample_connFd sample_sockaddrToUDP arrival_of_request
           arrival_with_timestamp 7 7 sample_datagram sample_peer);
    reflexivity.
Defined.

(** C7 as stated fails: when a datagram arrives with no control message
    there is no timestamp to extract, yet the call does not fail. It returns
    a nil error together with a packet, the time [time.Unix(0, 0)] and an
    address, all as if valid. *)
Lemma absent_timestamp_returned_as_valid :
  arrival_without_control (sample_connFd 7).1
    = inr (mkDatagram (wire_format sample_request) [] sample_sender) /\
  ReadPacketWithKernelTimestamp Z sample_connFd sample_sockaddrToUDP
      arrival_without_control 7
    = Returns (Some sample_request, time_Unix 0 0, Some sample_peer, None) /\
  ~ (forall (conn : Z) (d : Datagram) ntp hwRxTime remAddr err,
       arrival_without_control (sample_connFd conn).1 = inr d ->
       control d = [] ->
       ReadPacketWithKernelTimestamp Z sample_connFd sample_sockaddrToUDP
           arrival_without_control conn
         = Returns (ntp, hwRxTime, remAddr, err) ->
       err <> None /\ ntp = None /\ hwRxTime = Time_zero /\ remAddr = None).
Proof.
  split; [reflexivity |].
  assert (Hrun : ReadPacketWithKernelTimestamp Z sample_connFd
                   sample_sockaddrToUDP arrival_without_control 7
                 = Returns (Some sample_request, time_Unix 0 0,
                            Some sample_peer, None))
    by (vm_compute; reflexivity).
  split; [exact Hrun |].
  intros H.
  destruct (H 7 _ _ _ _ _ eq_refl eq_refl Hrun) as [Herr _].
  apply Herr. reflexivity.
Qed.
